(** * Order ledger of the e-mail order taker (main.py)

    A shallow embedding of the session ledger kept by [main.py]: the values
    that [json.loads] hands to the program, the admission routine
    [save_order_to_state], the button handler that feeds it, and the history
    table, followed by the properties of the ledger. *)

From Stdlib Require Import ZArith NArith List Bool Lia.
From Stdlib Require Import Ascii String.
From Stdlib Require Import Decimal DecimalString DecimalPos DecimalN.
From Stdlib Require DecimalFacts.
From Stdlib Require Import SpecFloat.
Import ListNotations.

Local Open Scope string_scope.
Local Open Scope list_scope.
Local Open Scope Z_scope.

(** ** Python values

    The values [json.loads] produces, which are also the values stored in the
    session: [None], booleans, integers of any size, floats, strings, lists
    and dictionaries with string keys.  A float is an IEEE 754 binary64
    value: a JSON number with a fraction or an exponent, or one of the
    constants [NaN], [Infinity] and [-Infinity], which [json.loads] accepts.
    A dictionary is kept as the list of its bindings in insertion order; when
    a key occurs twice the first binding is the live one. *)

#[warnings="-register-all"]
Inductive pyval : Type :=
| PNone
| PBool (b : bool)
| PInt (z : Z)
| PFloat (f : spec_float)
| PStr (s : string)
| PList (l : list pyval)
| PDict (d : list (string * pyval)).

Module Py.

(** [k in d] and [d[k]] on the bindings of a dictionary. *)
Fixpoint lookup {V : Type} (k : string) (d : list (string * V)) : option V :=
  match d with
  | [] => None
  | (k', v) :: rest => if String.eqb k k' then Some v else lookup k rest
  end.

Definition mem (k : string) (seen : list string) : bool :=
  existsb (String.eqb k) seen.

(** The distinct keys of a dictionary, in order of first occurrence;
    [seen] holds the keys met so far. *)
Fixpoint live_keys {V : Type} (seen : list string) (d : list (string * V)) : list string :=
  match d with
  | [] => []
  | (k, _) :: rest =>
      if mem k seen then live_keys seen rest else k :: live_keys (k :: seen) rest
  end.

(** [len(d)] *)
Definition dict_len {V : Type} (d : list (string * V)) : nat :=
  List.length (live_keys [] d).

Section Compare.
Context {V : Type} (eqv : V -> V -> bool).

(** Two lists are equal when they have the same length and equal
    elements at each position. *)
Fixpoint equal_lists (xs ys : list V) {struct xs} : bool :=
  match xs, ys with
  | [], [] => true
  | x :: xs', y :: ys' => eqv x y && equal_lists xs' ys'
  | _, _ => false
  end.

(** Every live binding of [d] is a key of [d2] with an equal value. *)
Fixpoint equal_bindings (d2 : list (string * V)) (seen : list string)
    (d : list (string * V)) {struct d} : bool :=
  match d with
  | [] => true
  | (k, v) :: rest =>
      (if mem k seen then true
       else match lookup k d2 with
            | Some v' => eqv v v'
            | None => false
            end)
      && equal_bindings d2 (k :: seen) rest
  end.
End Compare.

(** The float NaN.  [json.loads] has one NaN object and returns it for
    every [NaN] it reads. *)
Definition is_nan (v : pyval) : bool :=
  match v with
  | PFloat S754_nan => true
  | _ => false
  end.

(** [f == z] for a float and an integer: Python compares the two values
    exactly, without rounding the integer. *)
Definition float_equals_int (f : spec_float) (z : Z) : bool :=
  match f with
  | S754_zero _ => Z.eqb z 0
  | S754_finite s m e =>
      let sign := if s then (-1) else 1 in
      if Z.leb 0 e then Z.eqb z (sign * (Zpos m * 2 ^ e))
      else Z.eqb (Zpos m mod 2 ^ (- e)) 0 && Z.eqb z (sign * (Zpos m / 2 ^ (- e)))
  | S754_infinity _ | S754_nan => false
  end.

(** [a == b].  [bool] is a subclass of [int], so [True == 1]; a float equals
    the integer of the same value; NaN equals nothing, itself included;
    lists compare element by element; dictionaries compare as mappings,
    whatever the order of their keys; values of unrelated types are unequal.
    For the elements of two lists and the values of two dictionaries Python
    asks first whether the two are the same object and compares them only
    when they are not; among the values [json.loads] builds that makes a
    difference for NaN alone, which is one object and not equal to itself. *)
Fixpoint equal (a b : pyval) {struct a} : bool :=
  match a, b with
  | PNone, PNone => true
  | PBool x, PBool y => Bool.eqb x y
  | PBool x, PInt y => Z.eqb (Z.b2z x) y
  | PInt x, PBool y => Z.eqb x (Z.b2z y)
  | PInt x, PInt y => Z.eqb x y
  | PFloat x, PFloat y => SFeqb x y
  | PFloat x, PInt y => float_equals_int x y
  | PInt x, PFloat y => float_equals_int y x
  | PFloat x, PBool y => float_equals_int x (Z.b2z y)
  | PBool x, PFloat y => float_equals_int y (Z.b2z x)
  | PStr x, PStr y => String.eqb x y
  | PList xs, PList ys =>
      equal_lists (fun x y => (is_nan x && is_nan y) || equal x y) xs ys
  | PDict d1, PDict d2 =>
      Nat.eqb (dict_len d1) (dict_len d2)
      && equal_bindings (fun x y => (is_nan x && is_nan y) || equal x y) d2 [] d1
  | _, _ => false
  end.

(** [bool(v)], the test an [if v:] performs. *)
Definition truthy (v : pyval) : bool :=
  match v with
  | PNone => false
  | PBool b => b
  | PInt z => negb (Z.eqb z 0)
  | PFloat f => match f with S754_zero _ => false | _ => true end
  | PStr s => negb (String.eqb s "")
  | PList l => match l with [] => false | _ => true end
  | PDict d => match d with [] => false | _ => true end
  end.

(** Exceptions the modelled code can raise. *)
Inductive exn : Type :=
| AttributeError   (* a method looked up on a value that has none of that name *)
| KeyError (k : string)
| TypeError
| ValueError
| LibraryError.    (* raised inside a library call; its class is not modelled *)

Inductive result (A : Type) : Type :=
| Ok (a : A)
| Raise (e : exn).
Arguments Ok {A} a.
Arguments Raise {A} e.

(** [v.get(k, default)]: only a dictionary has a [get] method. *)
Definition get_default (v : pyval) (k : string) (default : pyval) : result pyval :=
  match v with
  | PDict d => Ok (match lookup k d with Some x => x | None => default end)
  | _ => Raise AttributeError
  end.

(** [v.get(k)], whose default is [None]. *)
Definition get (v : pyval) (k : string) : result pyval := get_default v k PNone.

(** [v[k]] with a string key: a missing key of a dictionary is a
    [KeyError]; a list or a string refuses a string index and the other
    values are not subscriptable, both with a [TypeError]. *)
Definition getitem (v : pyval) (k : string) : result pyval :=
  match v with
  | PDict d => match lookup k d with Some x => Ok x | None => Raise (KeyError k) end
  | _ => Raise TypeError
  end.

(** [str(n)] for [n >= 0]: the decimal digits, most significant first. *)
Definition digits (n : N) : string := NilEmpty.string_of_uint (N.to_uint n).

Fixpoint zeros (n : nat) : string :=
  match n with
  | O => ""
  | S n' => String "0" (zeros n')
  end.

(** Left padding with ["0"] up to [width] characters; longer strings are
    left as they are. *)
Definition zfill (width : nat) (s : string) : string :=
  zeros (width - String.length s) ++ s.

(** [format(z, "07d")]: the sign, if any, comes first and counts in the
    width; the zeros go between the sign and the digits. *)
Definition format_07d (z : Z) : string :=
  if Z.ltb z 0 then String "-" (zfill 6 (digits (Z.to_N (- z))))
  else zfill 7 (digits (Z.to_N z)).

(** [format(v, ",")] succeeds on numbers (booleans included) only: [None],
    lists and dictionaries raise [TypeError], a string raises [ValueError].
    The rendered text is not needed here. *)
Definition format_thousands (v : pyval) : result unit :=
  match v with
  | PInt _ | PBool _ | PFloat _ => Ok tt
  | PStr _ => Raise ValueError
  | _ => Raise TypeError
  end.

End Py.

(** ** Session state and screen output

    [st.session_state] survives from one run of the script to the next; of
    its entries the program logic reads and writes [orders],
    [internal_tracking_counter] and [recipient_email].  The [st.*] calls are
    recorded as the list of widgets they put on the page.  Where a widget
    shows an f-string, the interpolated values are kept as they are, not
    rendered to text. *)

Record session_state : Type := {
  orders : list pyval;
  internal_tracking_counter : Z;
  recipient_email : string
}.

Inductive widget : Type :=
| header (text : string)
    (* st.header(text) *)
| subheader (text : string)
    (* st.subheader(text) *)
| warning_duplicate (order_id : pyval)
    (* st.warning: "Order ID: {order_id} already exists in the session." *)
| error_extraction
    (* st.error: "Gemini API Extraction Error: {e}" *)
| success_extraction
    (* st.success: "Information extraction successful!" *)
| json_view (extracted_data : pyval)
    (* st.json(extracted_data) *)
| success_saved (order_id : pyval) (internal_tracking_number : string)
    (* st.success: "Order ID: {order_id} order information saved to session.
       Internal Tracking No.: {internal_tracking_number}" *)
| info_notification (internal_tracking_number : string)
    (order_id cust_name order_date total delivery_address : pyval) (recipient : string)
    (* st.info(notification_message) *)
| warning_skipped (order_id : pyval)
    (* st.warning: "[Order Processing Skipped] - Order ID: {order_id} ..." *)
| dataframe_history (display_data : list pyval)
    (* st.dataframe(display_data, ...) of the history section *)
| info_no_orders.
    (* st.info: "No order information has been saved to the session yet." *)

(** A computation reads and updates the session, writes widgets, and ends
    with a value or with an exception; what was written to the session before
    an exception stays written. *)
Definition M (A : Type) : Type :=
  session_state -> Py.result A * session_state * list widget.

Definition ret {A} (a : A) : M A := fun s => (Py.Ok a, s, []).

Definition bind {A B} (m : M A) (f : A -> M B) : M B :=
  fun s =>
    match m s with
    | (Py.Ok a, s1, w1) =>
        match f a s1 with
        | (r, s2, w2) => (r, s2, w1 ++ w2)
        end
    | (Py.Raise e, s1, w1) => (Py.Raise e, s1, w1)
    end.

Definition lift {A} (r : Py.result A) : M A := fun s => (r, s, []).

Definition read {A} (f : session_state -> A) : M A := fun s => (Py.Ok (f s), s, []).

Definition write (f : session_state -> session_state) : M unit :=
  fun s => (Py.Ok tt, f s, []).

Definition show (w : widget) : M unit := fun s => (Py.Ok tt, s, [w]).

Declare Scope py_scope.
Delimit Scope py_scope with py.
Notation "x <- m ;; k" := (bind m (fun x => k))
  (at level 100, m at next level, right associativity) : py_scope.
Notation "m ;; k" := (bind m (fun _ => k))
  (at level 100, right associativity) : py_scope.
Local Open Scope py_scope.

Definition set_orders (l : list pyval) (s : session_state) : session_state :=
  {| orders := l;
     internal_tracking_counter := internal_tracking_counter s;
     recipient_email := recipient_email s |}.

Definition set_counter (c : Z) (s : session_state) : session_state :=
  {| orders := orders s;
     internal_tracking_counter := c;
     recipient_email := recipient_email s |}.

(** ** Section 2 of main.py: a fresh session *)

Definition initial_session : session_state :=
  {| orders := [];
     internal_tracking_counter := 0;
     recipient_email := "relation@example.com" |}.

(** ** Section 3 of main.py: [save_order_to_state] *)

(** [any(order['order_id'] == order_id for order in l)]: the entries are
    visited in order and the scan stops at the first match; an entry that has
    no ['order_id'] raises when the scan reaches it. *)
Fixpoint any_order_id (order_id : pyval) (l : list pyval) : Py.result bool :=
  match l with
  | [] => Py.Ok false
  | order :: rest =>
      match Py.getitem order "order_id" with
      | Py.Raise e => Py.Raise e
      | Py.Ok stored =>
          if Py.equal stored order_id then Py.Ok true else any_order_id order_id rest
      end
  end.

Definition format_itn (counter : Z) : string := "ITN-" ++ Py.format_07d counter.

(** The clock is read once per admission; its formatted reading [now] is an
    input of the model. *)
Definition save_order_to_state (now : string) (extracted_data : pyval) : M (bool * string) :=
  order_id <- lift (Py.get extracted_data "order_id") ;;
  duplicate <- (l <- read orders ;; lift (any_order_id order_id l)) ;;
  if (duplicate : bool) then
    show (warning_duplicate order_id) ;;
    ret (false, "Not Assigned (Duplicate Order)")
  else
    write (fun s => set_counter (internal_tracking_counter s + 1) s) ;;
    counter <- read internal_tracking_counter ;;
    let internal_tracking_number := format_itn counter in
    order_date <- lift (Py.get extracted_data "order_date") ;;
    customer_name <- lift (Py.get extracted_data "customer_name") ;;
    total_amount <- lift (Py.get extracted_data "total_amount") ;;
    delivery_address <- lift (Py.get extracted_data "delivery_address") ;;
    let data_to_save :=
      PDict [ ("order_id", order_id);
              ("internal_tracking_number", PStr internal_tracking_number);
              ("order_date", order_date);
              ("customer_name", customer_name);
              ("total_amount", total_amount);
              ("delivery_address", delivery_address);
              ("extraction_time", PStr now);
              ("raw_json", extracted_data) ] in
    write (fun s => set_orders (orders s ++ [data_to_save]) s) ;;
    ret (true, internal_tracking_number).

(** ** Section 4 of main.py: [extract_order_info]

    The request to the model and [json.loads] on its answer either raise
    (network or service error, text that is not JSON) or give a value. *)

Inductive gemini_reply : Type :=
| reply_raises
| reply_json (v : pyval).

Definition extract_order_info (reply : gemini_reply) : M pyval :=
  match reply with
  | reply_json v => ret v
  | reply_raises => show error_extraction ;; ret PNone
  end.

(** ** Section 5 of main.py: the button handler

    The body of the handler once its two pre-execution checks have passed,
    up to and including the notification.  The item table drawn after the
    notification only renders [extracted_data] and is left out. *)

Definition extract_and_process (now : string) (reply : gemini_reply) : M unit :=
  show (header "2. Information Extraction by Gemini") ;;
  extracted_data <- extract_order_info reply ;;
  if Py.truthy extracted_data then
    show success_extraction ;;
    show (subheader "Extracted Data (JSON)") ;;
    show (json_view extracted_data) ;;
    show (header "3. Saving to Session State & Notification") ;;
    saved <- save_order_to_state now extracted_data ;;
    let '(saved_successfully, internal_tracking_number) := saved in
    order_id <- lift (Py.get_default extracted_data "order_id" (PStr "N/A")) ;;
    if (saved_successfully : bool) then
      show (success_saved order_id internal_tracking_number) ;;
      cust_name <- lift (Py.get_default extracted_data "customer_name" (PStr "N/A")) ;;
      total <- lift (Py.get_default extracted_data "total_amount" (PStr "N/A")) ;;
      order_date <- lift (Py.get_default extracted_data "order_date" (PStr "N/A")) ;;
      delivery_address <- lift (Py.get_default extracted_data "delivery_address" (PStr "N/A")) ;;
      recipient <- read recipient_email ;;
      lift (Py.format_thousands total) ;;
      show (info_notification internal_tracking_number
              order_id cust_name order_date total delivery_address recipient)
    else
      show (warning_skipped order_id)
  else
    ret tt.

(** ** Section 6 of main.py: the order history

    The [if st.session_state.orders:] block that builds and shows the table.
    Whether [st.dataframe] draws the table it is given or raises is the
    library's matter and depends on the data; [dataframe_raises] tells it. *)

(** One row of [display_data]. *)
Definition display_row (order : pyval) : Py.result pyval :=
  match Py.getitem order "order_id" with Py.Raise e => Py.Raise e | Py.Ok order_id =>
  match Py.getitem order "internal_tracking_number" with Py.Raise e => Py.Raise e | Py.Ok itn =>
  match Py.getitem order "order_date" with Py.Raise e => Py.Raise e | Py.Ok order_date =>
  match Py.getitem order "customer_name" with Py.Raise e => Py.Raise e | Py.Ok customer_name =>
  match Py.getitem order "total_amount" with Py.Raise e => Py.Raise e | Py.Ok total_amount =>
  match Py.getitem order "delivery_address" with Py.Raise e => Py.Raise e | Py.Ok delivery_address =>
  match Py.getitem order "extraction_time" with Py.Raise e => Py.Raise e | Py.Ok extraction_time =>
    Py.Ok (PDict [ ("Order ID", order_id);
                   ("Internal Tracking No.", itn);
                   ("Order Date", order_date);
                   ("Customer Name", customer_name);
                   ("Total Amount", total_amount);
                   ("Delivery Address", delivery_address);
                   ("Extraction Time", extraction_time) ])
  end end end end end end end.

(** The [for order in st.session_state.orders] loop: [display_data] grows by
    one row per entry, in the order of the session list. *)
Fixpoint display_rows (display_data : list pyval) (l : list pyval) : Py.result (list pyval) :=
  match l with
  | [] => Py.Ok display_data
  | order :: rest =>
      match display_row order with
      | Py.Raise e => Py.Raise e
      | Py.Ok row => display_rows (display_data ++ [row]) rest
      end
  end.

Definition order_history (dataframe_raises : list pyval -> bool) : M unit :=
  l <- read orders ;;
  if Py.truthy (PList l) then
    display_data <- lift (display_rows [] l) ;;
    let display_data := List.rev display_data in
    if dataframe_raises display_data then lift (Py.Raise Py.LibraryError)
    else show (dataframe_history display_data)
  else
    show info_no_orders.

(** ** A session

    Each press of the button is a run of the script of its own, so an
    exception in one admission does not end the session: the next admission
    starts from the session as the failed one left it.  [run] makes the
    admissions of [calls] one after the other and collects what each
    returned. *)

Fixpoint run (calls : list (string * pyval)) (s : session_state)
    : session_state * list (Py.result (bool * string)) :=
  match calls with
  | [] => (s, [])
  | (now, extracted_data) :: rest =>
      match save_order_to_state now extracted_data s with
      | (r, s1, _) =>
          match run rest s1 with
          | (s2, rs) => (s2, r :: rs)
          end
      end
  end.

(** An admission succeeded when it returned [True] first. *)
Definition succeeded (r : Py.result (bool * string)) : bool :=
  match r with
  | Py.Ok (true, _) => true
  | _ => false
  end.

(** The accepted calls with the tracking number each was given, in call
    order. *)
Fixpoint accepted (calls : list (string * pyval)) (rs : list (Py.result (bool * string)))
    : list (string * pyval * string) :=
  match calls, rs with
  | (now, d) :: calls', r :: rs' =>
      match r with
      | Py.Ok (true, itn) => (now, d, itn) :: accepted calls' rs'
      | _ => accepted calls' rs'
      end
  | _, _ => []
  end.

(** ** Definitions used in the statements

    What follows is not code of main.py: an induction principle for values,
    the reading of the stored entry and of a run that the theorems are stated
    with, and sample data. *)

Section PyvalInduction.
Variable P : pyval -> Prop.
Hypothesis HNone : P PNone.
Hypothesis HBool : forall b, P (PBool b).
Hypothesis HInt : forall z, P (PInt z).
Hypothesis HFloat : forall f, P (PFloat f).
Hypothesis HStr : forall s, P (PStr s).
Hypothesis HList : forall l, Forall P l -> P (PList l).
Hypothesis HDict : forall d, Forall (fun kv => P (snd kv)) d -> P (PDict d).

(** Induction on a value with the hypothesis available for every element
    of a list and every value of a dictionary. *)
Fixpoint pyval_nested_ind (v : pyval) : P v :=
  match v with
  | PNone => HNone
  | PBool b => HBool b
  | PInt z => HInt z
  | PFloat f => HFloat f
  | PStr s => HStr s
  | PList l =>
      HList l
        ((fix each (l : list pyval) : Forall P l :=
            match l with
            | [] => Forall_nil P
            | x :: l' => Forall_cons x (pyval_nested_ind x) (each l')
            end) l)
  | PDict d =>
      HDict d
        ((fix each (d : list (string * pyval)) : Forall (fun kv => P (snd kv)) d :=
            match d with
            | [] => Forall_nil _
            | kv :: d' =>
                Forall_cons kv
                  (match kv return P (snd kv) with (_, x) => pyval_nested_ind x end)
                  (each d')
            end) d)
  end.
End PyvalInduction.

(** Reading a string of decimal digits back as a number; leading zeros do
    not count. *)
Definition read_digits (s : string) : option N :=
  option_map N.of_uint (NilEmpty.uint_of_string s).

(** [ds] is the number [n] zero-padded to seven digits: decimal digits
    only, that read as [n]; seven of them, or more when [n] does not fit in
    seven, and then without a zero in front. *)
Definition zero_padded_to_7 (n : N) (ds : string) : Prop :=
  read_digits ds = Some n /\
  (String.length ds = 7%nat \/
   (7 < String.length ds)%nat /\ exists c rest, ds = String c rest /\ c <> "0"%char).

(** The float NaN as an order_id. *)
Definition nan : pyval := PFloat S754_nan.

(** [d.get(k)] on the bindings of a dictionary. *)
Definition field (d : list (string * pyval)) (k : string) : pyval :=
  match Py.lookup k d with
  | Some x => x
  | None => PNone
  end.

(** The record an admission stores for the candidate [d]. *)
Definition entry (now itn : string) (d : list (string * pyval)) : pyval :=
  PDict [ ("order_id", field d "order_id");
          ("internal_tracking_number", PStr itn);
          ("order_date", field d "order_date");
          ("customer_name", field d "customer_name");
          ("total_amount", field d "total_amount");
          ("delivery_address", field d "delivery_address");
          ("extraction_time", PStr now);
          ("raw_json", PDict d) ].

(** The session after the candidate [d] has been stored at the time [now]. *)
Definition store (now : string) (d : list (string * pyval)) (s : session_state) : session_state :=
  {| orders :=
       orders s ++ [entry now (format_itn (internal_tracking_counter s + 1)) d];
     internal_tracking_counter := internal_tracking_counter s + 1;
     recipient_email := recipient_email s |}.

(** Sample candidates and sessions. *)
Definition po (order_id : string) (total : Z) : pyval :=
  PDict [ ("order_id", PStr order_id); ("total_amount", PInt total) ].

(** The session in which the order [order_id] alone has been accepted. *)
Definition session_with (order_id : string) : session_state :=
  snd (fst (save_order_to_state "2025-09-01 10:00:00" (po order_id 100) initial_session)).

(** The entry [e] is what the accepted call [(now, v, itn)] stored. *)
Definition stored_as (e : pyval) (call : string * pyval * string) : Prop :=
  let '(now, v, itn) := call in
  exists d, v = PDict d /\ e = entry now itn d.

(** The [n] tracking numbers handed out after the counter stood at [c]. *)
Definition itns_after (c : Z) (n : nat) : list string :=
  map (fun i => format_itn (c + Z.of_nat i)) (seq 1 n).

(** Of any two entries, the later one's order_id was compared with the
    earlier one's and found different. *)
Definition distinct_order_ids (l : list pyval) : Prop :=
  forall i j ei ej,
    (i < j)%nat -> nth_error l i = Some ei -> nth_error l j = Some ej ->
    exists a b,
      Py.getitem ei "order_id" = Py.Ok a /\
      Py.getitem ej "order_id" = Py.Ok b /\
      Py.equal a b = false.

(** The order of scenario A, with its item. *)
Definition pen_order : pyval :=
  PDict [ ("order_id", PStr "PO-1");
          ("total_amount", PInt 100);
          ("items", PList [ PDict [ ("product_name", PStr "Pen");
                                    ("quantity", PInt 2);
                                    ("unit_price", PInt 50) ] ]) ].

(** The fields of a candidate that an admission copies into the entry. *)
Definition copied_fields : list string :=
  [ "order_id"; "order_date"; "customer_name"; "total_amount"; "delivery_address" ].

(** The columns of the history table with the field of the entry each shows. *)
Definition columns : list (string * string) :=
  [ ("Order ID", "order_id");
    ("Internal Tracking No.", "internal_tracking_number");
    ("Order Date", "order_date");
    ("Customer Name", "customer_name");
    ("Total Amount", "total_amount");
    ("Delivery Address", "delivery_address");
    ("Extraction Time", "extraction_time") ].

(** The row [row] shows the entry [e]. *)
Definition shows (row e : pyval) : Prop :=
  Forall (fun c => Py.getitem row (fst c) = Py.getitem e (snd c)) columns.

(** ** The script as a whole

    One run of main.py from top to bottom.  Streamlit runs the script again
    on every interaction; what a run finds in [st.session_state] is what the
    previous runs of the same browser session left there.  The values the
    input widgets return, which button was pressed, the reading of the clock,
    and what the outside services do in this run (the construction of the
    client, the answer of the model, the drawing of the item table by pandas
    and of the history table by [st.dataframe]) are inputs of the run.  Of
    the static texts of the page only the heading of the history is
    recorded, as the mark that the run reached section 6. *)

(** What [st.session_state] holds under ['gemini_client']. *)
Inductive client_slot : Type :=
| client_missing   (* the key is not in st.session_state *)
| client_None      (* the key is there and holds None *)
| client_ready.    (* the key holds a genai.Client *)

(** [st.session_state] as a run finds it, as far as the program sets it
    itself: every key may still be missing. *)
Record browser_session : Type := {
  found_orders : option (list pyval);
  found_GEMINI_API_KEY : option string;
  found_recipient_email : option string;
  found_internal_tracking_counter : option Z;
  found_gemini_client : client_slot
}.

Definition new_browser_session : browser_session :=
  {| found_orders := None;
     found_GEMINI_API_KEY := None;
     found_recipient_email := None;
     found_internal_tracking_counter := None;
     found_gemini_client := client_missing |}.

(** [st.session_state] once section 2 has run. *)
Record page : Type := {
  session : session_state;
  GEMINI_API_KEY : string;
  gemini_client : client_slot
}.

Definition or_else {A : Type} (found : option A) (default : A) : A :=
  match found with
  | Some x => x
  | None => default
  end.

(** Section 2 of main.py: each of the four keys is set only when it is not
    there yet. *)
Definition initialise (b : browser_session) : page :=
  {| session :=
       {| orders := or_else (found_orders b) [];
          internal_tracking_counter := or_else (found_internal_tracking_counter b) 0;
          recipient_email := or_else (found_recipient_email b) "relation@example.com" |};
     GEMINI_API_KEY := or_else (found_GEMINI_API_KEY b) "";
     gemini_client := found_gemini_client b |}.

(** What the next run finds. *)
Definition persist (p : page) : browser_session :=
  {| found_orders := Some (orders (session p));
     found_GEMINI_API_KEY := Some (GEMINI_API_KEY p);
     found_recipient_email := Some (recipient_email (session p));
     found_internal_tracking_counter := Some (internal_tracking_counter (session p));
     found_gemini_client := gemini_client p |}.

Record run_inputs : Type := {
  api_key_input : string;           (* what the "Gemini API Key" field returns *)
  apply_pressed : bool;             (* st.button("Apply API Key & Initialize") *)
  client_raises : bool;             (* genai.Client(api_key=...) raises *)
  recipient_email_input : string;   (* what the "Recipient Email Address" field returns *)
  email_input : string;             (* what the text area returns *)
  process_pressed : bool;           (* st.button("Extract & Process Order Information") *)
  gemini_answer : gemini_reply;     (* what the model call and json.loads do *)
  clock : string;                   (* datetime.now(), formatted *)
  pandas_raises : bool;             (* building or drawing the item table raises *)
  history_raises : list pyval -> bool   (* st.dataframe raises on this history table *)
}.

Inductive page_widget : Type :=
| success_client           (* st.success: "Gemini client initialized successfully." *)
| error_client             (* st.error: "Failed to initialize API Key: {e}" *)
| warning_enter_key        (* st.warning: "Please enter the API key." *)
| error_key_not_set        (* st.error: "Gemini API Key is not set. ..." *)
| warning_enter_email      (* st.warning: "Please enter the email body." *)
| from_handler (w : widget)
| item_table (items_list : pyval)   (* st.dataframe(df_items, ...) *)
| warning_no_items         (* st.warning: "No item details were extracted." *)
| history_heading.         (* st.header: "Order History Saved in Session" *)

(** How a run ends: at the bottom of the script, at an [st.stop()], or at an
    exception, raised by the modelled code ([LibraryError] when the history
    table cannot be drawn) or while the item table is built and drawn. *)
Inductive ending : Type :=
| completed
| stopped
| raised (e : Py.exn)
| raised_in_pandas.

Definition with_session (s : session_state) (p : page) : page :=
  {| session := s; GEMINI_API_KEY := GEMINI_API_KEY p; gemini_client := gemini_client p |}.

Definition with_key (k : string) (p : page) : page :=
  {| session := session p; GEMINI_API_KEY := k; gemini_client := gemini_client p |}.

Definition with_client (c : client_slot) (p : page) : page :=
  {| session := session p; GEMINI_API_KEY := GEMINI_API_KEY p; gemini_client := c |}.

Definition with_recipient (r : string) (s : session_state) : session_state :=
  {| orders := orders s;
     internal_tracking_counter := internal_tracking_counter s;
     recipient_email := r |}.

(** The sidebar: the Apply button stores the key and, when the key is not
    empty, tries to build the client; the recipient field is stored on every
    run. *)
Definition sidebar (i : run_inputs) (p : page) : page * list page_widget :=
  let '(p1, w1) :=
    if apply_pressed i then
      let p' := with_key (api_key_input i) p in
      if Py.truthy (PStr (GEMINI_API_KEY p')) then
        if client_raises i then (with_client client_None p', [error_client])
        else (with_client client_ready p', [success_client])
      else (p', [warning_enter_key])
    else (p, [])
  in
  (with_session (with_recipient (recipient_email_input i) (session p1)) p1, w1).

(** ['gemini_client' not in st.session_state or
    not st.session_state.get('gemini_client')] *)
Definition client_not_set (p : page) : bool :=
  match gemini_client p with
  | client_ready => false
  | _ => true
  end.

(** The notification is the last thing [extract_and_process] shows in the
    branch of a saved order; the item table follows it in that branch. *)
Definition notified (ws : list widget) : bool :=
  existsb (fun w => match w with
                    | info_notification _ _ _ _ _ _ _ => true
                    | _ => false
                    end) ws.

(** The item table of the saved order. *)
Definition item_details (i : run_inputs) : ending * list page_widget :=
  match gemini_answer i with
  | reply_json extracted_data =>
      match Py.get_default extracted_data "items" (PList []) with
      | Py.Raise e => (raised e, [])
      | Py.Ok items_list =>
          if Py.truthy items_list then
            if pandas_raises i then (raised_in_pandas, [])
            else (completed, [item_table items_list])
          else (completed, [warning_no_items])
      end
  | reply_raises => (completed, [])
  end.

(** The body of [if st.button("Extract & Process Order Information"):]. *)
Definition process_button (i : run_inputs) (p : page) : ending * page * list page_widget :=
  if client_not_set p then (stopped, p, [error_key_not_set])
  else if negb (Py.truthy (PStr (email_input i))) then (stopped, p, [warning_enter_email])
  else
    match extract_and_process (clock i) (gemini_answer i) (session p) with
    | (Py.Raise e, s, ws) => (raised e, with_session s p, map from_handler ws)
    | (Py.Ok _, s, ws) =>
        if notified ws then
          match item_details i with
          | (e, wi) => (e, with_session s p, map from_handler ws ++ wi)
          end
        else (completed, with_session s p, map from_handler ws)
    end.

(** Section 6: the heading, then the table or the note that there is none. *)
Definition history (i : run_inputs) (p : page) : ending * page * list page_widget :=
  match order_history (history_raises i) (session p) with
  | (Py.Ok _, s, ws) => (completed, with_session s p, history_heading :: map from_handler ws)
  | (Py.Raise e, s, ws) => (raised e, with_session s p, history_heading :: map from_handler ws)
  end.

(** The script: nothing below an [st.stop()] or an exception is run. *)
Definition script (i : run_inputs) (b : browser_session) : ending * page * list page_widget :=
  match sidebar i (initialise b) with
  | (p1, w1) =>
      match (if process_pressed i then process_button i p1 else (completed, p1, [])) with
      | (completed, p2, w2) =>
          match history i p2 with
          | (e, p3, w3) => (e, p3, w1 ++ w2 ++ w3)
          end
      | (e, p2, w2) => (e, p2, w1 ++ w2)
      end
  end.

(** A browser session: the runs of the script one after the other, each
    finding what the one before left. *)
Fixpoint browse (runs : list run_inputs) (b : browser_session) : browser_session :=
  match runs with
  | [] => b
  | i :: rest =>
      match script i b with
      | (_, p, _) => browse rest (persist p)
      end
  end.

(** The part of the session an admission reads and writes. *)
Definition ledger (s : session_state) : list pyval * Z :=
  (orders s, internal_tracking_counter s).

(** Whether the stored entry [e] has an order_id that is [==] to [order_id]. *)
Definition same_order_id (order_id : pyval) (e : pyval) : bool :=
  match Py.getitem e "order_id" with
  | Py.Ok stored => Py.equal stored order_id
  | Py.Raise _ => false
  end.

(** [d.get(k, 'N/A')] on the bindings of a dictionary: what the messages of
    the handler show for the field [k]. *)
Definition shown (d : list (string * pyval)) (k : string) : pyval :=
  match Py.lookup k d with
  | Some x => x
  | None => PStr "N/A"
  end.

(** What the handler has put on the page when it calls the admission. *)
Definition before_saving (v : pyval) : list widget :=
  [ header "2. Information Extraction by Gemini";
    success_extraction;
    subheader "Extracted Data (JSON)";
    json_view v;
    header "3. Saving to Session State & Notification" ].

(** A run of the button with a ready client, some e-mail text and the
    answer [v] of the model, the sidebar left alone. *)
Definition press (now : string) (v : pyval) (recipient : string) : run_inputs :=
  {| api_key_input := "";
     apply_pressed := false;
     client_raises := false;
     recipient_email_input := recipient;
     email_input := "Subject: Order";
     process_pressed := true;
     gemini_answer := reply_json v;
     clock := now;
     pandas_raises := false;
     history_raises := fun _ => false |}.

(** A run that applies the key "k", the client being built without error. *)
Definition apply_key : run_inputs :=
  {| api_key_input := "k";
     apply_pressed := true;
     client_raises := false;
     recipient_email_input := "relation@example.com";
     email_input := "";
     process_pressed := false;
     gemini_answer := reply_raises;
     clock := "";
     pandas_raises := false;
     history_raises := fun _ => false |}.

(** * Properties *)

(** ** Worked examples *)

Example format_07d_1 : Py.format_07d 1 = "0000001".
Proof. reflexivity. Qed.

Example format_07d_wide : Py.format_07d 12345678 = "12345678".
Proof. reflexivity. Qed.

Example format_07d_neg : Py.format_07d (-5) = "-000005".
Proof. reflexivity. Qed.

Example equal_true_1 : Py.equal (PBool true) (PInt 1) = true.
Proof. reflexivity. Qed.

Example equal_nan_nan : Py.equal nan nan = false.
Proof. reflexivity. Qed.

Example equal_list_of_nan : Py.equal (PList [nan]) (PList [nan]) = true.
Proof. reflexivity. Qed.

Example equal_dict_of_nan :
  Py.equal (PDict [("x", nan)]) (PDict [("x", nan)]) = true.
Proof. reflexivity. Qed.

(** 1.0 is 4503599627370496 * 2 ** -52; 0.5 is the same mantissa with the
    exponent -53. *)
Example equal_one_float_int :
  Py.equal (PFloat (S754_finite false 4503599627370496 (-52))) (PInt 1) = true.
Proof. reflexivity. Qed.

Example equal_true_float :
  Py.equal (PBool true) (PFloat (S754_finite false 4503599627370496 (-52))) = true.
Proof. reflexivity. Qed.

Example equal_half_int :
  Py.equal (PFloat (S754_finite false 4503599627370496 (-53))) (PInt 0) = false.
Proof. reflexivity. Qed.

Example equal_zeros : Py.equal (PFloat (S754_zero true)) (PFloat (S754_zero false)) = true.
Proof. reflexivity. Qed.

Example truthy_nan : Py.truthy nan = true.
Proof. reflexivity. Qed.

Example equal_dict_not_list : Py.equal (PDict []) (PList []) = false.
Proof. reflexivity. Qed.

Example equal_dict_any_order :
  Py.equal (PDict [("a", PInt 1); ("b", PNone)]) (PDict [("b", PNone); ("a", PInt 1)]) = true.
Proof. reflexivity. Qed.

Example scenario_A :
  fst (fst (save_order_to_state "2025-09-01 10:00:00" (po "PO-1" 100) initial_session))
  = Py.Ok (true, "ITN-0000001").
Proof. reflexivity. Qed.

Example scenario_B :
  let s1 := snd (fst (save_order_to_state "2025-09-01 10:00:00" (po "PO-1" 100) initial_session)) in
  save_order_to_state "2025-09-01 10:00:05" (po "PO-1" 250) s1
  = (Py.Ok (false, "Not Assigned (Duplicate Order)"), s1, [warning_duplicate (PStr "PO-1")]).
Proof. reflexivity. Qed.

Example scenario_C :
  snd (run [ ("t1", po "PO-1" 100); ("t2", po "PO-1" 100);
             ("t3", po "PO-2" 7); ("t4", PList [PInt 1]); ("t5", po "PO-3" 8) ]
           initial_session)
  = [ Py.Ok (true, "ITN-0000001"); Py.Ok (false, "Not Assigned (Duplicate Order)");
      Py.Ok (true, "ITN-0000002"); Py.Raise Py.AttributeError; Py.Ok (true, "ITN-0000003") ].
Proof. reflexivity. Qed.

(** ** Python values *)

Lemma mem_In k seen : Py.mem k seen = true <-> In k seen.
Proof.
  unfold Py.mem. rewrite existsb_exists. split.
  - intros (x & Hx & E). apply String.eqb_eq in E. now subst.
  - intros H. exists k. split; [assumption | apply String.eqb_refl].
Qed.

Lemma lookup_app_fresh {V : Type} k (v : V) pre rest :
  ~ In k (map fst pre) -> Py.lookup k (pre ++ (k, v) :: rest) = Some v.
Proof.
  induction pre as [| [k' v'] pre IH]; simpl; intros Hk.
  - now rewrite String.eqb_refl.
  - destruct (String.eqb k k') eqn:E.
    + apply String.eqb_eq in E. subst. tauto.
    + apply IH. tauto.
Qed.

Lemma equal_lists_refl {V : Type} (eqv : V -> V -> bool) l :
  Forall (fun x => eqv x x = true) l -> Py.equal_lists eqv l l = true.
Proof.
  induction 1 as [| x l Hx _ IH]; simpl; [reflexivity |].
  now rewrite Hx, IH.
Qed.

(** Comparing the tail [d] of a dictionary [pre ++ d] with the whole, when
    [seen] holds exactly the keys of [pre]. *)
Lemma equal_bindings_refl {V : Type} (eqv : V -> V -> bool) d :
  Forall (fun kv => eqv (snd kv) (snd kv) = true) d ->
  forall pre seen,
    (forall k, In k seen <-> In k (map fst pre)) ->
    Py.equal_bindings eqv (pre ++ d) seen d = true.
Proof.
  induction 1 as [| [k v] d Hv _ IH]; intros pre seen Hseen; simpl; [reflexivity |].
  apply andb_true_intro. split.
  - destruct (Py.mem k seen) eqn:Hm; [reflexivity |].
    rewrite lookup_app_fresh; [exact Hv |].
    intros Hin. apply Hseen in Hin. apply mem_In in Hin. congruence.
  - replace (pre ++ (k, v) :: d) with ((pre ++ [(k, v)]) ++ d)
      by (rewrite <- app_assoc; reflexivity).
    apply IH. intros k0. rewrite map_app, in_app_iff. simpl.
    rewrite <- Hseen. tauto.
Qed.

Lemma SFeqb_refl f : f <> S754_nan -> SFeqb f f = true.
Proof.
  intros Hf. unfold SFeqb, SFcompare.
  destruct f as [s | s | | s m e]; [reflexivity | destruct s; reflexivity | contradiction |].
  rewrite Z.compare_refl, Pos.compare_cont_refl. destruct s; reflexivity.
Qed.

(** Two elements that are the same object or equal: every value stands in
    this relation to itself. *)
Lemma identical_or_equal_refl v : (Py.is_nan v && Py.is_nan v) || Py.equal v v = true.
Proof.
  induction v as [| b | z | f | s | l IH | d IH] using pyval_nested_ind; simpl.
  - reflexivity.
  - apply Bool.eqb_reflx.
  - apply Z.eqb_refl.
  - destruct f as [s | s | | s m e]; try reflexivity; simpl;
      apply SFeqb_refl; discriminate.
  - apply String.eqb_refl.
  - now apply equal_lists_refl.
  - rewrite Nat.eqb_refl. simpl.
    apply (equal_bindings_refl
             (fun x y => (Py.is_nan x && Py.is_nan y) || Py.equal x y) d IH [] []).
    tauto.
Qed.

Lemma pyval_eq_nan v : v = nan \/ v <> nan.
Proof.
  destruct v as [| b | z | f | s | l | d]; try (right; discriminate).
  destruct f; try (right; discriminate). left. reflexivity.
Qed.

(** [v == v] holds for every value but the float NaN. *)
Lemma equal_refl v : v <> nan -> Py.equal v v = true.
Proof.
  intros Hv. assert (H := identical_or_equal_refl v).
  destruct v as [| b | z | f | s | l | d]; try exact H.
  destruct f as [s | s | | s m e]; try exact H. contradiction.
Qed.

(** ** Tracking numbers *)

Lemma read_digits_digits n : read_digits (Py.digits n) = Some n.
Proof.
  unfold read_digits, Py.digits.
  rewrite NilEmpty.usu. simpl. now rewrite DecimalN.Unsigned.of_to.
Qed.

Lemma read_digits_zero s : read_digits (String "0" s) = read_digits s.
Proof.
  unfold read_digits. simpl.
  destruct (NilEmpty.uint_of_string s); reflexivity.
Qed.

Lemma read_digits_minus s : read_digits (String "-" s) = None.
Proof.
  unfold read_digits. simpl.
  destruct (NilEmpty.uint_of_string s); reflexivity.
Qed.

Lemma read_digits_zfill width n : read_digits (Py.zfill width (Py.digits n)) = Some n.
Proof.
  unfold Py.zfill.
  induction (width - String.length (Py.digits n))%nat as [| k IH]; simpl.
  - apply read_digits_digits.
  - now rewrite read_digits_zero.
Qed.

Lemma zeros_length k : String.length (Py.zeros k) = k.
Proof. induction k as [| k IH]; simpl; [reflexivity | now rewrite IH]. Qed.

Lemma append_length s t :
  String.length (s ++ t) = (String.length s + String.length t)%nat.
Proof. induction s as [| c s IH]; simpl; [reflexivity | now rewrite IH]. Qed.

(** Padding fills up to the width and never cuts. *)
Lemma zfill_length width s :
  String.length (Py.zfill width s) = Nat.max width (String.length s).
Proof. unfold Py.zfill. rewrite append_length, zeros_length. lia. Qed.

(** A counter that is not negative is shown with seven characters at least. *)
Lemma format_07d_length z : 0 <= z -> (7 <= String.length (Py.format_07d z))%nat.
Proof.
  intros Hz. unfold Py.format_07d.
  destruct (Z.ltb_spec z 0) as [Hneg | _]; [lia |].
  rewrite zfill_length. lia.
Qed.

Lemma format_07d_inj a b : Py.format_07d a = Py.format_07d b -> a = b.
Proof.
  unfold Py.format_07d.
  destruct (Z.ltb_spec a 0) as [Ha | Ha], (Z.ltb_spec b 0) as [Hb | Hb]; intros E.
  - injection E as E. apply (f_equal read_digits) in E.
    rewrite !read_digits_zfill in E. injection E as E. lia.
  - apply (f_equal read_digits) in E.
    rewrite read_digits_minus, read_digits_zfill in E. discriminate.
  - apply (f_equal read_digits) in E.
    rewrite read_digits_minus, read_digits_zfill in E. discriminate.
  - apply (f_equal read_digits) in E.
    rewrite !read_digits_zfill in E. injection E as E. lia.
Qed.

Lemma string_of_uint_length d :
  String.length (NilEmpty.string_of_uint d) = nb_digits d.
Proof. induction d; simpl; congruence. Qed.

Lemma usize_nb_digits d : DecimalPos.Unsigned.usize d = N.of_nat (nb_digits d).
Proof.
  induction d; cbn [DecimalPos.Unsigned.usize nb_digits];
    rewrite ?Nat2N.inj_succ, ?IHd; reflexivity.
Qed.

Lemma of_lu_bound d :
  (DecimalPos.Unsigned.of_lu d < 10 ^ DecimalPos.Unsigned.usize d)%N.
Proof.
  induction d; cbn [DecimalPos.Unsigned.of_lu DecimalPos.Unsigned.usize];
    [reflexivity | rewrite N.pow_succ_r'; lia ..].
Qed.

(** A number written with [k] digits is below [10 ^ k] ... *)
Lemma to_uint_upper p :
  (N.pos p < 10 ^ N.of_nat (nb_digits (Pos.to_uint p)))%N.
Proof.
  rewrite <- DecimalPos.Unsigned.of_to at 1.
  rewrite DecimalPos.Unsigned.of_uint_alt.
  rewrite <- (DecimalFacts.nb_digits_rev (Pos.to_uint p)), <- usize_nb_digits.
  apply of_lu_bound.
Qed.

Lemma of_uint_acc_lower d acc :
  (10 ^ N.of_nat (nb_digits d) <= N.pos (Pos.of_uint_acc d acc))%N.
Proof.
  rewrite DecimalPos.Unsigned.of_uint_acc_rev, usize_nb_digits.
  assert (1 <= N.pos acc)%N by lia.
  assert (10 ^ N.of_nat (nb_digits d) <> 0)%N by (apply N.pow_nonzero; lia).
  nia.
Qed.

(** ... and, as [str] writes no leading zero, at least [10 ^ (k - 1)]. *)
Lemma to_uint_lower p :
  (10 ^ N.of_nat (Nat.pred (nb_digits (Pos.to_uint p))) <= N.pos p)%N.
Proof.
  assert (Hn : unorm (Pos.to_uint p) = Pos.to_uint p).
  { rewrite <- (DecimalPos.Unsigned.to_of (Pos.to_uint p)).
    rewrite DecimalPos.Unsigned.of_to. reflexivity. }
  assert (Hz := DecimalPos.Unsigned.to_uint_nonzero p).
  assert (Hof := DecimalPos.Unsigned.of_to p).
  destruct (Pos.to_uint p) as [| d | d | d | d | d | d | d | d | d | d] eqn:E.
  1: discriminate Hof.
  2-10: simpl in Hof; injection Hof as <-; cbn [nb_digits Nat.pred];
        apply of_uint_acc_lower.
  exfalso. unfold unorm in Hn.
  destruct (nzhead (D0 d)) eqn:En;
    apply (DecimalFacts.nzhead_nonzero (D0 d) d); congruence.
Qed.

Lemma digits_length_small n :
  (n < 10 ^ 7)%N -> (String.length (Py.digits n) <= 7)%nat.
Proof.
  intros Hn. unfold Py.digits. rewrite string_of_uint_length.
  destruct n as [| p]; [simpl; lia |].
  change (N.to_uint (N.pos p)) with (Pos.to_uint p).
  assert (Hlow := to_uint_lower p).
  destruct (Nat.le_gt_cases (nb_digits (Pos.to_uint p)) 7) as [Hle | Hgt]; [exact Hle |].
  exfalso.
  assert (H7 : (10 ^ 7 <= 10 ^ N.of_nat (Nat.pred (nb_digits (Pos.to_uint p))))%N).
  { apply N.pow_le_mono_r; lia. }
  lia.
Qed.

Lemma digits_length_large n :
  (10 ^ 7 <= n)%N -> (8 <= String.length (Py.digits n))%nat.
Proof.
  intros Hn. unfold Py.digits. rewrite string_of_uint_length.
  destruct n as [| p]; [simpl in Hn; lia |].
  change (N.to_uint (N.pos p)) with (Pos.to_uint p).
  assert (Hup := to_uint_upper p).
  destruct (Nat.le_gt_cases 8 (nb_digits (Pos.to_uint p))) as [Hle | Hgt]; [exact Hle |].
  exfalso.
  assert (H7 : (10 ^ N.of_nat (nb_digits (Pos.to_uint p)) <= 10 ^ 7)%N).
  { apply N.pow_le_mono_r; lia. }
  lia.
Qed.

(** [str] of a positive number starts with a digit other than zero. *)
Lemma digits_no_leading_zero n :
  n <> 0%N -> exists c rest, Py.digits n = String c rest /\ c <> "0"%char.
Proof.
  destruct n as [| p]; [contradiction |]. intros _.
  unfold Py.digits. change (N.to_uint (N.pos p)) with (Pos.to_uint p).
  assert (Hn : unorm (Pos.to_uint p) = Pos.to_uint p).
  { rewrite <- (DecimalPos.Unsigned.to_of (Pos.to_uint p)).
    rewrite DecimalPos.Unsigned.of_to. reflexivity. }
  assert (Hz := DecimalPos.Unsigned.to_uint_nonzero p).
  assert (Hof := DecimalPos.Unsigned.of_to p).
  destruct (Pos.to_uint p) as [| d | d | d | d | d | d | d | d | d | d] eqn:E.
  1: discriminate Hof.
  2-10: simpl; eexists; eexists; split; [reflexivity | discriminate].
  exfalso. unfold unorm in Hn.
  destruct (nzhead (D0 d)) eqn:En;
    apply (DecimalFacts.nzhead_nonzero (D0 d) d); congruence.
Qed.

(** What [format(z, "07d")] gives for a counter that is not negative is the
    counter zero-padded to seven digits. *)
Lemma format_07d_zero_padded z :
  0 <= z -> zero_padded_to_7 (Z.to_N z) (Py.format_07d z).
Proof.
  intros Hz. unfold Py.format_07d, zero_padded_to_7.
  destruct (Z.ltb_spec z 0) as [Hneg | _]; [lia |].
  split; [apply read_digits_zfill |].
  destruct (Nat.le_gt_cases (String.length (Py.digits (Z.to_N z))) 7) as [Hle | Hgt].
  - left. rewrite zfill_length. lia.
  - right. split; [rewrite zfill_length; lia |].
    unfold Py.zfill.
    replace (7 - String.length (Py.digits (Z.to_N z)))%nat with 0%nat by lia.
    simpl. apply digits_no_leading_zero.
    intros E. rewrite E in Hgt. simpl in Hgt. lia.
Qed.

(** C10: the tracking number, "ITN-" followed by the counter zero-padded to
    seven digits, determines the counter: two different positive counters
    never get the same tracking number, also above 9,999,999 where the number
    has more than seven digits. *)
Theorem format_itn_injective (n m : Z) :
  0 < n -> 0 < m -> n <> m -> format_itn n <> format_itn m.
Proof.
  intros _ _ Hnm E. apply Hnm. unfold format_itn in E. simpl in E.
  injection E as E. now apply format_07d_inj.
Qed.

Lemma format_itn_injective_witness :
  format_itn 9999999 = "ITN-9999999" /\
  format_itn 10000000 = "ITN-10000000" /\
  format_itn 9999999 <> format_itn 10000000.
Proof.
  split; [reflexivity |]. split; [reflexivity |].
  apply (format_itn_injective 9999999 10000000); lia.
Defined.

(** ** One admission *)

(** The three ways an admission can go, read off the code of
    [save_order_to_state]. *)
Lemma save_order_to_state_cases now v s :
  save_order_to_state now v s =
  match v with
  | PDict d =>
      match any_order_id (field d "order_id") (orders s) with
      | Py.Raise e => (Py.Raise e, s, [])
      | Py.Ok true =>
          (Py.Ok (false, "Not Assigned (Duplicate Order)"), s,
           [warning_duplicate (field d "order_id")])
      | Py.Ok false =>
          (Py.Ok (true, format_itn (internal_tracking_counter s + 1)), store now d s, [])
      end
  | _ => (Py.Raise Py.AttributeError, s, [])
  end.
Proof.
  destruct v; try reflexivity.
  unfold save_order_to_state, bind, lift, read, write, show, ret. simpl.
  fold (field d "order_id").
  destruct (any_order_id (field d "order_id") (orders s)) as [[|] | e]; reflexivity.
Qed.

Lemma any_order_id_app o l l' :
  any_order_id o l = Py.Ok false -> any_order_id o (l ++ l') = any_order_id o l'.
Proof.
  induction l as [| e l IH]; simpl; [reflexivity |].
  destruct (Py.getitem e "order_id") as [a |]; [| discriminate].
  destruct (Py.equal a o); [discriminate | exact IH].
Qed.

(** A scan that finds nothing has looked at every entry: each has an
    ['order_id'] and none compares equal to the candidate's. *)
Lemma any_order_id_false o l :
  any_order_id o l = Py.Ok false ->
  Forall (fun e => exists a, Py.getitem e "order_id" = Py.Ok a /\ Py.equal a o = false) l.
Proof.
  induction l as [| e l IH]; simpl; intros H; [constructor |].
  destruct (Py.getitem e "order_id") as [a |] eqn:Ea; [| discriminate].
  destruct (Py.equal a o) eqn:Eo; [discriminate |].
  constructor; [exists a; split; [exact Ea | exact Eo] | now apply IH].
Qed.

(** When every entry has an ['order_id'], one equal to the candidate's is
    found wherever it stands. *)
Lemma any_order_id_hit o l :
  Forall (fun e => exists a, Py.getitem e "order_id" = Py.Ok a) l ->
  Exists (fun e => exists a, Py.getitem e "order_id" = Py.Ok a /\ Py.equal a o = true) l ->
  any_order_id o l = Py.Ok true.
Proof.
  induction 1 as [| e l [a Ha] _ IH]; intros Hex; [inversion Hex |]. simpl.
  rewrite Ha. destruct (Py.equal a o) eqn:Eo; [reflexivity |].
  apply IH. inversion Hex as [? ? (a' & Ha' & Eo') | ? ? Hl]; subst; [| assumption].
  rewrite Ha in Ha'. injection Ha' as <-. congruence.
Qed.

Lemma entry_order_id now itn d :
  Py.getitem (entry now itn d) "order_id" = Py.Ok (field d "order_id").
Proof. reflexivity. Qed.

(** Right after an admission the scan for the same [order_id] stops at the
    entry just stored. *)
Lemma any_order_id_stored now d s :
  field d "order_id" <> nan ->
  any_order_id (field d "order_id") (orders s) = Py.Ok false ->
  any_order_id (field d "order_id") (orders (store now d s)) = Py.Ok true.
Proof.
  intros Hnan H. unfold store. simpl. rewrite (any_order_id_app _ _ _ H). simpl.
  now rewrite (equal_refl _ Hnan).
Qed.

(** C4: an admission either stores exactly one more entry and moves the
    counter up by exactly one, or leaves the entries and the counter as they
    were; so from a fresh session the counter is the number of entries
    accepted so far. *)
Theorem atomic_coupled_update :
  (forall now v s,
     let '(r, s', _) := save_order_to_state now v s in
     (succeeded r = true /\
      (exists e, orders s' = orders s ++ [e]) /\
      internal_tracking_counter s' = internal_tracking_counter s + 1)
     \/
     (succeeded r = false /\
      orders s' = orders s /\
      internal_tracking_counter s' = internal_tracking_counter s))
  /\
  (forall calls,
     let '(s, rs) := run calls initial_session in
     internal_tracking_counter s = Z.of_nat (List.length (filter succeeded rs)) /\
     List.length (orders s) = List.length (filter succeeded rs)).
Proof.
  assert (Hstep : forall now v s,
     let '(r, s', _) := save_order_to_state now v s in
     (succeeded r = true /\
      (exists e, orders s' = orders s ++ [e]) /\
      internal_tracking_counter s' = internal_tracking_counter s + 1)
     \/
     (succeeded r = false /\
      orders s' = orders s /\
      internal_tracking_counter s' = internal_tracking_counter s)).
  { intros now v s. rewrite save_order_to_state_cases.
    destruct v; try (right; repeat split; reflexivity).
    destruct (any_order_id (field d "order_id") (orders s)) as [[|] | e];
      try (right; repeat split; reflexivity).
    left. repeat split. eexists. reflexivity. }
  split; [exact Hstep |].
  assert (Hrun : forall calls s,
     let '(s', rs) := run calls s in
     internal_tracking_counter s'
       = internal_tracking_counter s + Z.of_nat (List.length (filter succeeded rs)) /\
     List.length (orders s')
       = (List.length (orders s) + List.length (filter succeeded rs))%nat).
  { induction calls as [| [now v] calls IH]; intros s; simpl.
    - split; lia.
    - specialize (Hstep now v s).
      destruct (save_order_to_state now v s) as [[r s1] w].
      specialize (IH s1). destruct (run calls s1) as [s2 rs]. simpl.
      destruct IH as [IHc IHl].
      destruct Hstep as [(Hr & [e He] & Hc) | (Hr & Ho & Hc)]; rewrite Hr; simpl.
      + rewrite IHc, IHl, Hc, He, length_app. simpl. split; lia.
      + rewrite IHc, IHl, Hc, Ho. split; lia. }
  intros calls. specialize (Hrun calls initial_session).
  destruct (run calls initial_session) as [s rs]. simpl in Hrun.
  destruct Hrun as [Hc Hl]. split; [lia | lia].
Qed.

(** C3, as stated, fails: a candidate whose order_id is the float NaN is
    accepted every time it is submitted, since NaN is not equal to itself;
    submitted twice in succession it leaves two entries and the counter at
    2, not the one entry and the counter at 1 of a single submission. *)
Lemma nan_order_id_is_accepted_twice :
  let v := PDict [("order_id", nan)] in
  let s1 := snd (fst (save_order_to_state "2025-09-01 10:00:00" v initial_session)) in
  let s2 := snd (fst (save_order_to_state "2025-09-01 10:00:05" v s1)) in
  (List.length (orders s1) = 1%nat /\ internal_tracking_counter s1 = 1) /\
  (List.length (orders s2) = 2%nat /\ internal_tracking_counter s2 = 2) /\
  orders s2 <> orders s1.
Proof.
  cbv zeta. split; [split; reflexivity |]. split; [split; reflexivity |].
  discriminate.
Qed.

(** C3, amended: two admissions in succession of candidates with the same
    order_id, other than the float NaN, leave the entries and the counter as
    the first one left them, whatever the session was before and whatever
    the first admission did. *)
Theorem duplicate_idempotence (now1 now2 : string) (v1 v2 : pyval) (s : session_state) :
  Py.get v1 "order_id" = Py.get v2 "order_id" ->
  Py.get v1 "order_id" <> Py.Ok nan ->
  let s1 := snd (fst (save_order_to_state now1 v1 s)) in
  let s2 := snd (fst (save_order_to_state now2 v2 s1)) in
  orders s2 = orders s1 /\
  internal_tracking_counter s2 = internal_tracking_counter s1.
Proof.
  intros Hid Hnan. cbv zeta. rewrite !save_order_to_state_cases.
  destruct v1 as [| | | | | | d1];
    try (destruct v2; try discriminate Hid; split; reflexivity).
  destruct v2 as [| | | | | | d2]; try discriminate Hid.
  assert (Hf : field d1 "order_id" = field d2 "order_id").
  { unfold Py.get, Py.get_default in Hid. injection Hid as Hid. exact Hid. }
  assert (Hn : field d1 "order_id" <> nan).
  { intros E. apply Hnan. unfold Py.get, Py.get_default. fold (field d1 "order_id").
    now rewrite E. }
  rewrite <- Hf.
  destruct (any_order_id (field d1 "order_id") (orders s)) as [[|] | e] eqn:Escan; simpl.
  - rewrite Escan. split; reflexivity.
  - change (orders s ++ [entry now1 (format_itn (internal_tracking_counter s + 1)) d1])
      with (orders (store now1 d1 s)).
    rewrite (any_order_id_stored now1 d1 s Hn Escan). split; reflexivity.
  - rewrite Escan. split; reflexivity.
Qed.

Lemma duplicate_idempotence_witness :
  let s := initial_session in
  let s1 := snd (fst (save_order_to_state "2025-09-01 10:00:00" (po "PO-1" 100) s)) in
  let s2 := snd (fst (save_order_to_state "2025-09-01 10:00:05" (po "PO-1" 250) s1)) in
  List.length (orders s1) = 1%nat /\
  orders s2 = orders s1 /\
  internal_tracking_counter s2 = internal_tracking_counter s1.
Proof.
  split; [reflexivity |].
  apply (duplicate_idempotence "2025-09-01 10:00:00" "2025-09-01 10:00:05"
           (po "PO-1" 100) (po "PO-1" 250) initial_session).
  - reflexivity.
  - discriminate.
Defined.

(** C7, as stated, fails: the value returned on a duplicate is the same
    whatever the order_id was, so nothing can read the offending order_id
    off the returned outcome. *)
Lemma rejection_outcome_without_order_id :
  ~ (exists carried : bool * string -> pyval,
       forall now v s r s' w order_id,
         save_order_to_state now v s = (Py.Ok (false, r), s', w) ->
         Py.get v "order_id" = Py.Ok order_id ->
         carried (false, r) = order_id).
Proof.
  intros [carried H].
  assert (H1 := H "t" (po "PO-1" 100) (session_with "PO-1") _ _ _ (PStr "PO-1")
                  eq_refl eq_refl).
  assert (H2 := H "t" (po "PO-2" 100) (session_with "PO-2") _ _ _ (PStr "PO-2")
                  eq_refl eq_refl).
  rewrite H1 in H2. discriminate H2.
Qed.

(** C7, amended: on a duplicate the admission returns [False] with the fixed
    text "Not Assigned (Duplicate Order)" and leaves the session as it was;
    the offending order_id is shown in the warning the admission puts on the
    page, and it is the candidate's own. *)
Theorem duplicate_rejection_payload now v s r s' w :
  save_order_to_state now v s = (Py.Ok (false, r), s', w) ->
  exists order_id,
    Py.get v "order_id" = Py.Ok order_id /\
    any_order_id order_id (orders s) = Py.Ok true /\
    r = "Not Assigned (Duplicate Order)" /\
    w = [warning_duplicate order_id] /\
    s' = s.
Proof.
  rewrite save_order_to_state_cases. intros H.
  destruct v as [| | | | | | d]; try discriminate H.
  exists (field d "order_id").
  destruct (any_order_id (field d "order_id") (orders s)) as [[|] | e];
    try discriminate H.
  injection H as <- <- <-. repeat split; reflexivity.
Qed.

Lemma duplicate_rejection_payload_witness :
  exists order_id,
    Py.get (po "PO-1" 250) "order_id" = Py.Ok order_id /\
    any_order_id order_id (orders (session_with "PO-1")) = Py.Ok true /\
    "Not Assigned (Duplicate Order)" = "Not Assigned (Duplicate Order)" /\
    [warning_duplicate (PStr "PO-1")] = [warning_duplicate order_id] /\
    session_with "PO-1" = session_with "PO-1".
Proof.
  apply (duplicate_rejection_payload "2025-09-01 10:00:05" (po "PO-1" 250)
           (session_with "PO-1")).
  reflexivity.
Defined.

(** ** A whole session *)

Lemma itns_after_S c n :
  itns_after c (S n) = format_itn (c + 1) :: itns_after (c + 1) n.
Proof.
  unfold itns_after. simpl. f_equal.
  rewrite <- seq_shift, map_map. apply map_ext. intros i. f_equal. lia.
Qed.

(** What a run of admissions does to a session: the entries of the accepted
    calls are appended in call order, the counter advances by their number,
    and the numbers handed out continue from the counter. *)
Lemma run_from calls :
  forall s s' rs,
    run calls s = (s', rs) ->
    exists new,
      orders s' = orders s ++ new /\
      internal_tracking_counter s'
        = internal_tracking_counter s + Z.of_nat (List.length new) /\
      recipient_email s' = recipient_email s /\
      List.length (filter succeeded rs) = List.length new /\
      Forall2 stored_as new (accepted calls rs) /\
      map snd (accepted calls rs)
        = itns_after (internal_tracking_counter s) (List.length new).
Proof.
  induction calls as [| [now v] calls IH]; intros s s' rs Hrun; simpl in Hrun.
  - injection Hrun as <- <-. exists []. rewrite app_nil_r. simpl.
    repeat split; try lia. constructor.
  - destruct (save_order_to_state now v s) as [[r s1] w] eqn:Estep.
    destruct (run calls s1) as [s2 rs2] eqn:Erest.
    injection Hrun as <- <-.
    destruct (IH _ _ _ Erest) as (new & Ho & Hc & Hr & Hn & Hst & Hitn).
    rewrite save_order_to_state_cases in Estep.
    assert (Hskip : succeeded r = false -> s1 = s ->
              accepted ((now, v) :: calls) (r :: rs2) = accepted calls rs2 ->
              exists new,
                orders s2 = orders s ++ new /\
                internal_tracking_counter s2
                  = internal_tracking_counter s + Z.of_nat (List.length new) /\
                recipient_email s2 = recipient_email s /\
                List.length (filter succeeded (r :: rs2)) = List.length new /\
                Forall2 stored_as new (accepted ((now, v) :: calls) (r :: rs2)) /\
                map snd (accepted ((now, v) :: calls) (r :: rs2))
                  = itns_after (internal_tracking_counter s) (List.length new)).
    { intros Hfail -> ->. exists new. simpl. rewrite Hfail. now repeat split. }
    destruct v as [| | | | | | d];
      try (injection Estep as <- <- <-; now apply Hskip).
    destruct (any_order_id (field d "order_id") (orders s)) as [[|] | e];
      injection Estep as <- <- <-; try (now apply Hskip).
    exists (entry now (format_itn (internal_tracking_counter s + 1)) d :: new).
    simpl in Ho, Hc, Hr. simpl.
    rewrite Ho, Hc, Hr, Hn, Hitn, <- app_assoc, itns_after_S. simpl.
    repeat split; try lia.
    constructor; [| exact Hst]. exists d. split; reflexivity.
Qed.

Lemma stored_as_fields new adm :
  Forall2 stored_as new adm ->
  map (fun e => Py.getitem e "internal_tracking_number") new
    = map (fun call => Py.Ok (PStr (snd call))) adm /\
  Forall (fun e => exists a, Py.getitem e "order_id" = Py.Ok a) new.
Proof.
  induction 1 as [| e [[now v] itn] new adm (d & -> & ->) _ [IHm IHf]]; simpl.
  - split; [reflexivity | constructor].
  - split; [now rewrite IHm |].
    constructor; [| exact IHf]. eexists. reflexivity.
Qed.

Example format_itn_1 : format_itn 1 = "ITN-0000001".
Proof. reflexivity. Qed.

Example format_itn_9999999 : format_itn 9999999 = "ITN-9999999".
Proof. reflexivity. Qed.

Lemma Forall2_of_maps {A B C : Type} (f : A -> C) (g : B -> C) (R : C -> B -> Prop) l l' :
  map f l = map g l' ->
  Forall (fun y => R (g y) y) l' ->
  Forall2 (fun x y => R (f x) y) l l'.
Proof.
  revert l'. induction l as [| x l IH]; intros [| y l'] E H; try discriminate E.
  - constructor.
  - simpl in E. injection E as Ex El. inversion H as [| ? ? Hy Hl']; subst.
    constructor; [rewrite Ex; exact Hy | exact (IH l' El Hl')].
Qed.

(** C1: after any run of admissions from a fresh session, of which K
    succeeded, the counter is K and the ledger has K entries; the tracking
    number of the i-th entry, in the order of admission, is "ITN-" followed
    by the number i zero-padded to seven digits, the first one being
    "ITN-0000001"; and these are the numbers the K successful calls
    returned, in call order. *)
Theorem counter_fidelity (calls : list (string * pyval)) :
  let '(s, rs) := run calls initial_session in
  let K := List.length (filter succeeded rs) in
  internal_tracking_counter s = Z.of_nat K /\
  List.length (orders s) = K /\
  Forall2 (fun e i =>
             exists ds,
               Py.getitem e "internal_tracking_number" = Py.Ok (PStr ("ITN-" ++ ds)) /\
               zero_padded_to_7 (N.of_nat i) ds)
          (orders s) (seq 1 K) /\
  match orders s with
  | e :: _ => Py.getitem e "internal_tracking_number" = Py.Ok (PStr "ITN-0000001")
  | [] => K = 0%nat
  end /\
  map (fun e => Py.getitem e "internal_tracking_number") (orders s)
    = map (fun itn => Py.Ok (PStr itn)) (map snd (accepted calls rs)).
Proof.
  destruct (run calls initial_session) as [s rs] eqn:Hrun.
  destruct (run_from calls _ _ _ Hrun) as (new & Ho & Hc & _ & Hn & Hst & Hitn).
  simpl in Ho, Hc, Hitn. subst new. cbv zeta. rewrite Hn.
  destruct (stored_as_fields _ _ Hst) as [Hm _].
  assert (Hnum : map (fun e => Py.getitem e "internal_tracking_number") (orders s)
                 = map (fun i => Py.Ok (PStr (format_itn (Z.of_nat i))))
                       (seq 1 (List.length (orders s)))).
  { rewrite Hm. rewrite <- (map_map snd (fun itn => Py.Ok (PStr itn))), Hitn.
    unfold itns_after. rewrite map_map. reflexivity. }
  split; [exact Hc |]. split; [reflexivity |]. split; [| split].
  - apply (Forall2_of_maps
             (fun e => Py.getitem e "internal_tracking_number")
             (fun i => Py.Ok (PStr (format_itn (Z.of_nat i))))
             (fun r i => exists ds,
                r = Py.Ok (PStr ("ITN-" ++ ds)) /\ zero_padded_to_7 (N.of_nat i) ds)
             _ _ Hnum).
    apply Forall_forall. intros i _. exists (Py.format_07d (Z.of_nat i)).
    split; [reflexivity |].
    rewrite <- (N2Z.id (N.of_nat i)), nat_N_Z.
    apply format_07d_zero_padded. lia.
  - destruct (orders s) as [| e l]; [reflexivity |].
    simpl in Hnum. injection Hnum as He _. exact He.
  - rewrite Hm, map_map. reflexivity.
Qed.

(** ** Distinct order ids *)

Lemma distinct_order_ids_stored now d s :
  distinct_order_ids (orders s) ->
  any_order_id (field d "order_id") (orders s) = Py.Ok false ->
  distinct_order_ids (orders (store now d s)).
Proof.
  intros Hd Hscan i j ei ej Hij Hi Hj. unfold store in Hi, Hj. simpl in Hi, Hj.
  assert (Hlen : (j < List.length (orders s) + 1)%nat).
  { assert (Hsome : nth_error
                      (orders s ++ [entry now (format_itn (internal_tracking_counter s + 1)) d]) j
                    <> None) by (rewrite Hj; discriminate).
    apply nth_error_Some in Hsome. rewrite length_app in Hsome. exact Hsome. }
  rewrite nth_error_app1 in Hi by lia.
  destruct (Nat.eq_dec j (List.length (orders s))) as [-> | Hne].
  - rewrite nth_error_app2, Nat.sub_diag in Hj by lia. injection Hj as <-.
    apply any_order_id_false in Hscan.
    rewrite Forall_forall in Hscan.
    destruct (Hscan ei (nth_error_In _ _ Hi)) as (a & Ha & Hab).
    exists a, (field d "order_id"). repeat split; assumption.
  - rewrite nth_error_app1 in Hj by lia. exact (Hd i j ei ej Hij Hi Hj).
Qed.

Lemma distinct_order_ids_run calls :
  forall s, distinct_order_ids (orders s) -> distinct_order_ids (orders (fst (run calls s))).
Proof.
  induction calls as [| [now v] calls IH]; intros s Hd; simpl; [exact Hd |].
  destruct (save_order_to_state now v s) as [[r s1] w] eqn:Estep.
  specialize (IH s1). destruct (run calls s1) as [s2 rs2]. simpl in *.
  apply IH. rewrite save_order_to_state_cases in Estep.
  destruct v as [| | | | | | d]; try (injection Estep as <- <- <-; exact Hd).
  destruct (any_order_id (field d "order_id") (orders s)) as [[|] | e] eqn:Escan;
    injection Estep as <- <- <-; try exact Hd.
  now apply distinct_order_ids_stored.
Qed.

(** C2, as stated, fails: two candidates whose order_id is the float NaN
    are both accepted, and the ledger then has two entries with the same
    order_id, which is not null. *)
Lemma two_entries_share_nan_order_id :
  let s := fst (run [ ("t1", PDict [("order_id", nan)]);
                      ("t2", PDict [("order_id", nan)]) ] initial_session) in
  exists e1 e2,
    nth_error (orders s) 0 = Some e1 /\
    nth_error (orders s) 1 = Some e2 /\
    Py.getitem e1 "order_id" = Py.Ok nan /\
    Py.getitem e2 "order_id" = Py.Ok nan /\
    nan <> PNone.
Proof.
  cbv zeta. eexists. eexists.
  split; [reflexivity |]. split; [reflexivity |]. split; [reflexivity |].
  split; [reflexivity | discriminate].
Qed.

(** C2, amended: after any run of admissions from a fresh session, the
    order_id of an entry never compares equal to the order_id of an earlier
    entry; so two entries have the same order_id, null or not, only when it
    is the float NaN, the one value that is not equal to itself. *)
Theorem order_id_uniqueness (calls : list (string * pyval)) (i j : nat) (ei ej : pyval) :
  (i < j)%nat ->
  nth_error (orders (fst (run calls initial_session))) i = Some ei ->
  nth_error (orders (fst (run calls initial_session))) j = Some ej ->
  exists a b,
    Py.getitem ei "order_id" = Py.Ok a /\
    Py.getitem ej "order_id" = Py.Ok b /\
    Py.equal a b = false /\
    (a = b -> a = nan).
Proof.
  intros Hij Hi Hj.
  assert (Hd : distinct_order_ids (orders (fst (run calls initial_session)))).
  { apply distinct_order_ids_run. intros i' j' ? ? _ Hnil. destruct i'; discriminate Hnil. }
  destruct (Hd i j ei ej Hij Hi Hj) as (a & b & Ha & Hb & Hab).
  exists a, b. repeat split; try assumption.
  intros <-. destruct (pyval_eq_nan a) as [E | E]; [exact E |].
  rewrite (equal_refl a E) in Hab. discriminate.
Qed.

Lemma order_id_uniqueness_witness :
  exists a b,
    Py.getitem (entry "t1" "ITN-0000001" [("order_id", PStr "PO-1"); ("total_amount", PInt 100)])
      "order_id" = Py.Ok a /\
    Py.getitem (entry "t3" "ITN-0000002" [("order_id", PStr "PO-2"); ("total_amount", PInt 7)])
      "order_id" = Py.Ok b /\
    Py.equal a b = false /\
    (a = b -> a = nan).
Proof.
  apply (order_id_uniqueness
           [("t1", po "PO-1" 100); ("t2", po "PO-1" 250); ("t3", po "PO-2" 7)] 0 1).
  - lia.
  - reflexivity.
  - reflexivity.
Defined.

(** ** Candidates without an order_id *)

(** C5: in a ledger built by admissions from a fresh session, once an entry
    has the order_id [None], a candidate whose order_id is null or absent is
    rejected as a duplicate: [None == None] holds in the scan. *)
Theorem null_order_id_is_duplicate (calls : list (string * pyval)) (now : string) (v : pyval) :
  let s := fst (run calls initial_session) in
  Exists (fun e => Py.getitem e "order_id" = Py.Ok PNone) (orders s) ->
  Py.get v "order_id" = Py.Ok PNone ->
  save_order_to_state now v s
  = (Py.Ok (false, "Not Assigned (Duplicate Order)"), s, [warning_duplicate PNone]).
Proof.
  cbv zeta. destruct (run calls initial_session) as [s rs] eqn:Hrun. simpl.
  intros Hex Hnull.
  destruct (run_from calls _ _ _ Hrun) as (new & Ho & _ & _ & _ & Hst & _).
  simpl in Ho. subst new.
  destruct (stored_as_fields _ _ Hst) as [_ Hids].
  rewrite save_order_to_state_cases.
  destruct v as [| | | | | | d]; try discriminate Hnull.
  assert (Hf : field d "order_id" = PNone).
  { unfold Py.get, Py.get_default in Hnull. injection Hnull as Hnull. exact Hnull. }
  rewrite Hf, (any_order_id_hit PNone (orders s) Hids); [reflexivity |].
  apply Exists_exists in Hex. destruct Hex as (e & Hin & He).
  apply Exists_exists. exists e. split; [exact Hin |].
  exists PNone. split; [exact He | reflexivity].
Qed.

Lemma null_order_id_is_duplicate_witness :
  let s := fst (run [("t1", PDict [("customer_name", PStr "Sato")])] initial_session) in
  List.length (orders s) = 1%nat /\
  save_order_to_state "t2" (PDict [("order_id", PNone); ("customer_name", PStr "Abe")]) s
  = (Py.Ok (false, "Not Assigned (Duplicate Order)"), s, [warning_duplicate PNone]).
Proof.
  split; [reflexivity |].
  apply (null_order_id_is_duplicate [("t1", PDict [("customer_name", PStr "Sato")])] "t2"
           (PDict [("order_id", PNone); ("customer_name", PStr "Abe")])).
  - apply Exists_cons_hd. reflexivity.
  - reflexivity.
Defined.

(** ** The stored entry *)

(** C6, as stated, fails: the entry stored for a candidate that has items
    has no field [items]; the items are found in the candidate kept under
    ['raw_json'] only. *)
Lemma entry_without_items_field :
  exists s' e items,
    save_order_to_state "2025-09-01 10:00:00" pen_order initial_session
      = (Py.Ok (true, "ITN-0000001"), s', []) /\
    orders s' = [e] /\
    Py.get pen_order "items" = Py.Ok (PList items) /\ items <> [] /\
    Py.getitem e "items" = Py.Raise (Py.KeyError "items") /\
    Py.get e "items" = Py.Ok PNone.
Proof.
  eexists. eexists. eexists.
  split; [reflexivity |]. split; [reflexivity |]. split; [reflexivity |].
  split; [discriminate |]. split; reflexivity.
Qed.

(** C6, amended: a successful admission appends one entry that holds the
    candidate's order_id, order_date, customer_name, total_amount and
    delivery_address ([None] for a field the candidate lacks), the tracking
    number it returned, the extraction time, and under ['raw_json'] the
    candidate itself; items is not copied into a field of its own and is kept
    inside ['raw_json'] only. *)
Theorem ledger_entry_fields now v s itn s' w :
  save_order_to_state now v s = (Py.Ok (true, itn), s', w) ->
  exists e,
    orders s' = orders s ++ [e] /\
    Forall (fun k => Py.getitem e k = Py.get v k) copied_fields /\
    Py.getitem e "internal_tracking_number" = Py.Ok (PStr itn) /\
    Py.getitem e "extraction_time" = Py.Ok (PStr now) /\
    Py.getitem e "raw_json" = Py.Ok v /\
    Py.getitem e "items" = Py.Raise (Py.KeyError "items").
Proof.
  rewrite save_order_to_state_cases. intros H.
  destruct v as [| | | | | | d]; try discriminate H.
  destruct (any_order_id (field d "order_id") (orders s)) as [[|] | x];
    try discriminate H.
  injection H as <- <- <-.
  exists (entry now (format_itn (internal_tracking_counter s + 1)) d).
  repeat split. repeat constructor.
Qed.

Lemma ledger_entry_fields_witness :
  exists e,
    orders (store "2025-09-01 10:00:00"
              [ ("order_id", PStr "PO-1"); ("total_amount", PInt 100) ] initial_session)
      = orders initial_session ++ [e] /\
    Forall (fun k => Py.getitem e k = Py.get (po "PO-1" 100) k) copied_fields /\
    Py.getitem e "internal_tracking_number" = Py.Ok (PStr "ITN-0000001") /\
    Py.getitem e "extraction_time" = Py.Ok (PStr "2025-09-01 10:00:00") /\
    Py.getitem e "raw_json" = Py.Ok (po "PO-1" 100) /\
    Py.getitem e "items" = Py.Raise (Py.KeyError "items").
Proof.
  apply (ledger_entry_fields "2025-09-01 10:00:00" (po "PO-1" 100) initial_session
           "ITN-0000001" _ []).
  reflexivity.
Defined.

(** ** The button handler and candidates with missing fields *)

(** C8 at the empty object: the answer [{}] parses as a JSON object with
    every field absent, yet [if extracted_data:] takes it for no data: the
    handler ends after its first heading, without calling
    [save_order_to_state] and without a message, and the session is as it
    was. *)
Theorem empty_object_is_dropped (now : string) (s : session_state) :
  extract_and_process now (reply_json (PDict [])) s
  = (Py.Ok tt, s, [header "2. Information Extraction by Gemini"]).
Proof. reflexivity. Qed.

(** The admission itself takes the empty object: called on it in a fresh
    session it stores an entry with every field [None]. *)
Example empty_object_would_be_stored :
  save_order_to_state "2025-09-01 10:00:00" (PDict []) initial_session
  = (Py.Ok (true, "ITN-0000001"), store "2025-09-01 10:00:00" [] initial_session, []).
Proof. reflexivity. Qed.

(** Any other object is handed to the admission: the session the handler
    leaves is the session [save_order_to_state] leaves. *)
Lemma nonempty_object_is_handed_over now d s :
  d <> [] ->
  snd (fst (extract_and_process now (reply_json (PDict d)) s))
  = snd (fst (save_order_to_state now (PDict d) s)).
Proof.
  intros Hd. destruct d as [| kv d]; [contradiction |].
  unfold extract_and_process, extract_order_info, bind, show, ret, lift, read.
  cbn [Py.truthy].
  destruct (save_order_to_state now (PDict (kv :: d)) s) as [[[[saved itn] | e] s1] w];
    [| reflexivity].
  cbn [Py.get_default].
  destruct saved; [| reflexivity].
  destruct (Py.format_thousands
              match Py.lookup "total_amount" (kv :: d) with
              | Some x => x
              | None => PStr "N/A"
              end) as [[] | e]; reflexivity.
Qed.

(** An object with one field set and the others absent reaches the
    admission, and the absent fields are stored as [None]. *)
Example partial_candidate_is_stored :
  orders (snd (fst (extract_and_process "2025-09-01 10:00:00"
                      (reply_json (PDict [("total_amount", PInt 100)])) initial_session)))
  = [ PDict [ ("order_id", PNone);
              ("internal_tracking_number", PStr "ITN-0000001");
              ("order_date", PNone);
              ("customer_name", PNone);
              ("total_amount", PInt 100);
              ("delivery_address", PNone);
              ("extraction_time", PStr "2025-09-01 10:00:00");
              ("raw_json", PDict [("total_amount", PInt 100)]) ] ].
Proof. reflexivity. Qed.

(** A candidate without [total_amount] is stored too, but the handler then
    raises while it formats the notification, because the default "N/A" does
    not take the format [","]; a null [total_amount] raises a [TypeError] at
    the same place. *)
Example absent_total_raises :
  extract_and_process "2025-09-01 10:00:00"
    (reply_json (PDict [("order_id", PStr "PO-1")])) initial_session
  = (Py.Raise Py.ValueError,
     store "2025-09-01 10:00:00" [("order_id", PStr "PO-1")] initial_session,
     [ header "2. Information Extraction by Gemini";
       success_extraction;
       subheader "Extracted Data (JSON)";
       json_view (PDict [("order_id", PStr "PO-1")]);
       header "3. Saving to Session State & Notification";
       success_saved (PStr "PO-1") "ITN-0000001" ]).
Proof. reflexivity. Qed.

Example null_total_raises :
  fst (fst (extract_and_process "2025-09-01 10:00:00"
              (reply_json (PDict [("order_id", PStr "PO-1"); ("total_amount", PNone)]))
              initial_session))
  = Py.Raise Py.TypeError.
Proof. reflexivity. Qed.

(** ** The order history *)

Lemma display_rows_stored l adm :
  Forall2 stored_as l adm ->
  forall display_data,
  exists rows,
    display_rows display_data l = Py.Ok (display_data ++ rows) /\
    Forall2 shows rows l.
Proof.
  induction 1 as [| e [[now v] itn] l adm (d & -> & ->) _ IH]; intros display_data; simpl.
  - exists []. rewrite app_nil_r. split; [reflexivity | constructor].
  - match goal with
    | |- context [display_rows (display_data ++ [?row]) l] =>
        destruct (IH (display_data ++ [row])) as (rows & Hrows & Hshow);
        exists (row :: rows)
    end.
    rewrite Hrows, <- app_assoc. split; [reflexivity |].
    constructor; [| exact Hshow]. unfold shows. repeat constructor.
Qed.

(** C9: after any run of admissions from a fresh session the ledger holds
    the entries of the accepted calls in the order of their admission; the
    history loop lists them in that order, one row per entry; the table
    handed to [st.dataframe] is the exact reverse of that listing, and it is
    what the page shows unless [st.dataframe] raises on it; and the history
    section leaves the session, hence the ledger, as it was, however it
    ends. *)
Theorem order_preserving_listing
    (calls : list (string * pyval)) (dataframe_raises : list pyval -> bool) :
  let '(s, rs) := run calls initial_session in
  Forall2 stored_as (orders s) (accepted calls rs) /\
  exists rows,
    display_rows [] (orders s) = Py.Ok rows /\
    Forall2 shows rows (orders s) /\
    order_history dataframe_raises s
    = match orders s with
      | [] => (Py.Ok tt, s, [info_no_orders])
      | _ =>
          if dataframe_raises (List.rev rows)
          then (Py.Raise Py.LibraryError, s, [])
          else (Py.Ok tt, s, [dataframe_history (List.rev rows)])
      end.
Proof.
  destruct (run calls initial_session) as [s rs] eqn:Hrun.
  destruct (run_from calls _ _ _ Hrun) as (new & Ho & _ & _ & _ & Hst & _).
  simpl in Ho. subst new. split; [exact Hst |].
  destruct (display_rows_stored _ _ Hst []) as (rows & Hrows & Hshow).
  simpl in Hrows. exists rows. split; [exact Hrows |]. split; [exact Hshow |].
  unfold order_history, bind, read, lift, show. simpl.
  destruct (orders s) as [| e l] eqn:El; [reflexivity |].
  rewrite Hrows. destruct (dataframe_raises (List.rev rows)); reflexivity.
Qed.

Example history_newest_first :
  snd (order_history (fun _ => false)
         (fst (run [("t1", po "PO-1" 100); ("t2", po "PO-2" 7)] initial_session)))
  = [ dataframe_history
        [ PDict [ ("Order ID", PStr "PO-2"); ("Internal Tracking No.", PStr "ITN-0000002");
                  ("Order Date", PNone); ("Customer Name", PNone);
                  ("Total Amount", PInt 7); ("Delivery Address", PNone);
                  ("Extraction Time", PStr "t2") ];
          PDict [ ("Order ID", PStr "PO-1"); ("Internal Tracking No.", PStr "ITN-0000001");
                  ("Order Date", PNone); ("Customer Name", PNone);
                  ("Total Amount", PInt 100); ("Delivery Address", PNone);
                  ("Extraction Time", PStr "t1") ] ] ].
Proof. reflexivity. Qed.


(** * Further properties of the code *)

(** ** The ledger over a session *)

Lemma run_app calls1 calls2 s :
  fst (run (calls1 ++ calls2) s) = fst (run calls2 (fst (run calls1 s))).
Proof.
  revert s. induction calls1 as [| [now v] calls1 IH]; intros s; simpl; [reflexivity |].
  destruct (save_order_to_state now v s) as [[r s1] w].
  specialize (IH s1).
  destruct (run (calls1 ++ calls2) s1) as [s2 rs2].
  destruct (run calls1 s1) as [s3 rs3]. simpl in *. exact IH.
Qed.

(** X1: admissions only ever append.  From any session, not only a fresh
    one, a run of admissions leaves every entry that was there where it was
    and as it was, adds the new ones behind, and moves the counter up by the
    number of entries added, never down. *)
Theorem ledger_is_append_only (calls : list (string * pyval)) (s : session_state) :
  let s' := fst (run calls s) in
  (exists new,
     orders s' = orders s ++ new /\
     internal_tracking_counter s'
       = internal_tracking_counter s + Z.of_nat (List.length new)) /\
  (forall k e, nth_error (orders s) k = Some e -> nth_error (orders s') k = Some e) /\
  internal_tracking_counter s <= internal_tracking_counter s'.
Proof.
  cbv zeta. destruct (run calls s) as [s' rs] eqn:Hrun. simpl.
  destruct (run_from calls _ _ _ Hrun) as (new & Ho & Hc & _).
  split; [exists new; split; assumption |]. split.
  - intros k e Hk. rewrite Ho. rewrite nth_error_app1; [exact Hk |].
    apply nth_error_Some. rewrite Hk. discriminate.
  - lia.
Qed.

Lemma itns_after_nth c n k x :
  nth_error (itns_after c n) k = Some x -> x = format_itn (c + Z.of_nat (S k)).
Proof.
  unfold itns_after. intros H.
  rewrite nth_error_map in H.
  destruct (nth_error (seq 1 n) k) as [i |] eqn:Hi; [| discriminate H].
  injection H as <-.
  assert (Hlt : (k < n)%nat).
  { assert (Hs : nth_error (seq 1 n) k <> None) by (rewrite Hi; discriminate).
    apply nth_error_Some in Hs. rewrite length_seq in Hs. exact Hs. }
  apply (nth_error_nth _ _ 0%nat) in Hi. rewrite seq_nth in Hi by exact Hlt.
  subst i. reflexivity.
Qed.

(** The tracking number of the entry at position [k] of a ledger built from
    a fresh session. *)
Lemma tracking_number_at calls k e :
  nth_error (orders (fst (run calls initial_session))) k = Some e ->
  Py.getitem e "internal_tracking_number"
  = Py.Ok (PStr (format_itn (Z.of_nat (S k)))).
Proof.
  destruct (run calls initial_session) as [s rs] eqn:Hrun. simpl. intros Hk.
  destruct (run_from calls _ _ _ Hrun) as (new & Ho & _ & _ & _ & Hst & Hitn).
  simpl in Ho, Hitn. subst new.
  destruct (stored_as_fields _ _ Hst) as [Hm _].
  apply (map_nth_error (fun e => Py.getitem e "internal_tracking_number")) in Hk.
  rewrite Hm in Hk.
  rewrite nth_error_map in Hk.
  destruct (nth_error (accepted calls rs) k) as [call |] eqn:Hcall; [| discriminate Hk].
  injection Hk as <-.
  apply (map_nth_error snd) in Hcall. rewrite Hitn in Hcall.
  apply itns_after_nth in Hcall. rewrite Hcall. reflexivity.
Qed.

(** X2: in a ledger built from a fresh session two different entries never
    carry the same internal tracking number, however many orders have been
    taken. *)
Theorem tracking_numbers_distinct (calls : list (string * pyval)) (i j : nat) (ei ej : pyval) :
  i <> j ->
  nth_error (orders (fst (run calls initial_session))) i = Some ei ->
  nth_error (orders (fst (run calls initial_session))) j = Some ej ->
  exists a b,
    Py.getitem ei "internal_tracking_number" = Py.Ok (PStr a) /\
    Py.getitem ej "internal_tracking_number" = Py.Ok (PStr b) /\
    a <> b.
Proof.
  intros Hij Hi Hj.
  exists (format_itn (Z.of_nat (S i))), (format_itn (Z.of_nat (S j))).
  split; [exact (tracking_number_at calls i ei Hi) |].
  split; [exact (tracking_number_at calls j ej Hj) |].
  unfold format_itn. simpl. intros E. injection E as E.
  apply format_07d_inj in E. lia.
Qed.

Lemma tracking_numbers_distinct_witness :
  exists a b,
    Py.getitem (entry "t1" "ITN-0000001" [("order_id", PStr "PO-1"); ("total_amount", PInt 100)])
      "internal_tracking_number" = Py.Ok (PStr a) /\
    Py.getitem (entry "t3" "ITN-0000002" [("order_id", PStr "PO-2"); ("total_amount", PInt 7)])
      "internal_tracking_number" = Py.Ok (PStr b) /\
    a <> b.
Proof.
  apply (tracking_numbers_distinct
           [("t1", po "PO-1" 100); ("t2", po "PO-1" 250); ("t3", po "PO-2" 7)] 0 1).
  - lia.
  - reflexivity.
  - reflexivity.
Defined.

(** In a ledger built from a fresh session every entry has an order_id. *)
Lemma run_entries_have_order_id calls :
  Forall (fun e => exists a, Py.getitem e "order_id" = Py.Ok a)
    (orders (fst (run calls initial_session))).
Proof.
  destruct (run calls initial_session) as [s rs] eqn:Hrun. simpl.
  destruct (run_from calls _ _ _ Hrun) as (new & Ho & _ & _ & _ & Hst & _).
  simpl in Ho. subst new. exact (proj2 (stored_as_fields _ _ Hst)).
Qed.

(** X3: once an order has been accepted, every later candidate with the
    same order_id is turned down, however many other admissions came in
    between: the duplicate check covers the whole session, not only the
    immediate resubmission.  The one exception is an order_id that is the
    float NaN, which is not equal to itself. *)
Theorem accepted_order_id_stays_rejected
    (calls1 calls2 : list (string * pyval)) (now now' : string) (v v' : pyval) :
  let s1 := fst (run calls1 initial_session) in
  let s2 := fst (run calls2 (snd (fst (save_order_to_state now v s1)))) in
  succeeded (fst (fst (save_order_to_state now v s1))) = true ->
  Py.get v' "order_id" = Py.get v "order_id" ->
  Py.get v "order_id" <> Py.Ok nan ->
  exists order_id,
    Py.get v "order_id" = Py.Ok order_id /\
    save_order_to_state now' v' s2
    = (Py.Ok (false, "Not Assigned (Duplicate Order)"), s2, [warning_duplicate order_id]).
Proof.
  cbv zeta. intros Hok Hid Hnan.
  assert (Hids := run_entries_have_order_id (calls1 ++ (now, v) :: calls2)).
  rewrite run_app in Hids. simpl in Hids.
  destruct (save_order_to_state now v (fst (run calls1 initial_session)))
    as [[r s1'] w] eqn:Estep.
  simpl in Hok |- *.
  destruct (run calls2 s1') as [s2 rs2] eqn:Hrun2. simpl in Hids |- *.
  destruct (run_from calls2 _ _ _ Hrun2) as (new & Ho & _).
  rewrite save_order_to_state_cases in Estep.
  destruct v as [| | | | | | d]; try (injection Estep as <- <- <-; discriminate Hok).
  destruct (any_order_id (field d "order_id")
              (orders (fst (run calls1 initial_session)))) as [[|] | x];
    injection Estep as <- <- <-; try discriminate Hok.
  exists (field d "order_id"). split; [reflexivity |].
  rewrite save_order_to_state_cases.
  destruct v' as [| | | | | | d']; try discriminate Hid.
  assert (Hf : field d' "order_id" = field d "order_id").
  { unfold Py.get, Py.get_default in Hid. injection Hid as Hid. exact Hid. }
  rewrite Hf, (any_order_id_hit _ _ Hids); [reflexivity |].
  rewrite Ho. unfold store. simpl. apply Exists_app. left. apply Exists_app. right.
  apply Exists_cons_hd. exists (field d "order_id").
  split; [reflexivity | apply equal_refl].
  intros E. apply Hnan. unfold Py.get, Py.get_default. fold (field d "order_id").
  now rewrite E.
Qed.

Lemma accepted_order_id_stays_rejected_witness :
  let s2 := fst (run [("t3", po "PO-2" 7); ("t4", po "PO-3" 8)]
                   (snd (fst (save_order_to_state "t2" (po "PO-1" 100)
                                (fst (run [("t1", po "PO-0" 5)] initial_session))))))
  in
  List.length (orders s2) = 4%nat /\
  exists order_id,
    Py.get (po "PO-1" 100) "order_id" = Py.Ok order_id /\
    save_order_to_state "t5" (po "PO-1" 999) s2
    = (Py.Ok (false, "Not Assigned (Duplicate Order)"), s2, [warning_duplicate order_id]).
Proof.
  split; [reflexivity |].
  apply (accepted_order_id_stays_rejected
           [("t1", po "PO-0" 5)] [("t3", po "PO-2" 7); ("t4", po "PO-3" 8)]
           "t2" "t5" (po "PO-1" 100) (po "PO-1" 999)).
  - reflexivity.
  - reflexivity.
  - discriminate.
Defined.

Lemma any_order_id_existsb o l :
  Forall (fun e => exists a, Py.getitem e "order_id" = Py.Ok a) l ->
  any_order_id o l = Py.Ok (existsb (same_order_id o) l).
Proof.
  induction 1 as [| e l [a Ha] _ IH]; simpl; [reflexivity |].
  unfold same_order_id at 1. rewrite Ha.
  destruct (Py.equal a o); [reflexivity | exact IH].
Qed.

(** X4: in a ledger built from a fresh session the admission of a JSON
    object never raises, and it is decided by one test: the candidate is
    turned down exactly when some stored entry has an order_id that compares
    equal to the candidate's, and is stored with the next tracking number
    otherwise. *)
Theorem admission_criterion (calls : list (string * pyval)) (now : string)
    (d : list (string * pyval)) :
  let s := fst (run calls initial_session) in
  save_order_to_state now (PDict d) s
  = if existsb (same_order_id (field d "order_id")) (orders s)
    then (Py.Ok (false, "Not Assigned (Duplicate Order)"), s,
          [warning_duplicate (field d "order_id")])
    else (Py.Ok (true, format_itn (internal_tracking_counter s + 1)), store now d s, []).
Proof.
  cbv zeta. rewrite save_order_to_state_cases.
  rewrite (any_order_id_existsb _ _ (run_entries_have_order_id calls)).
  reflexivity.
Qed.

(** ** The button handler *)

(** X5: an answer the handler cannot use changes nothing.  When the model
    call or the JSON parser raises, the handler shows the extraction error;
    when the answer parses to a falsy value (null, false, 0, an empty string,
    list or object) it shows nothing more than its heading.  In both cases
    it ends normally and the session is as it was. *)
Theorem unusable_answer_is_ignored (now : string) (reply : gemini_reply) (s : session_state) :
  (reply = reply_raises \/ exists v, reply = reply_json v /\ Py.truthy v = false) ->
  extract_and_process now reply s
  = (Py.Ok tt, s,
     header "2. Information Extraction by Gemini"
       :: match reply with
          | reply_raises => [error_extraction]
          | reply_json _ => []
          end).
Proof.
  intros [-> | (v & -> & Hv)]; [reflexivity |].
  unfold extract_and_process, extract_order_info, bind, show, ret.
  rewrite Hv. reflexivity.
Qed.

Lemma unusable_answer_is_ignored_witness :
  extract_and_process "t" (reply_json (PList [])) (session_with "PO-1")
  = (Py.Ok tt, session_with "PO-1", [header "2. Information Extraction by Gemini"]).
Proof.
  apply (unusable_answer_is_ignored "t" (reply_json (PList [])) (session_with "PO-1")).
  right. exists (PList []). split; reflexivity.
Defined.

(** X6: an answer that is valid JSON but not an object (a non-empty array or
    string, a number, true) passes the [if extracted_data:] test; the page
    announces a successful extraction and shows the value, then the admission
    raises [AttributeError] at its first [.get].  The session is as it was. *)
Theorem answer_that_is_no_object_raises (now : string) (v : pyval) (s : session_state) :
  Py.truthy v = true ->
  (forall d, v <> PDict d) ->
  extract_and_process now (reply_json v) s
  = (Py.Raise Py.AttributeError, s, before_saving v).
Proof.
  intros Hv Hd.
  unfold extract_and_process, extract_order_info, bind, show, ret.
  rewrite Hv, save_order_to_state_cases.
  destruct v; try reflexivity. exfalso. eapply Hd. reflexivity.
Qed.

Lemma answer_that_is_no_object_raises_witness :
  extract_and_process "t" (reply_json (PList [po "PO-1" 100])) initial_session
  = (Py.Raise Py.AttributeError, initial_session, before_saving (PList [po "PO-1" 100])).
Proof.
  apply (answer_that_is_no_object_raises "t" (PList [po "PO-1" 100]) initial_session).
  - reflexivity.
  - discriminate.
Defined.

(** X7: a duplicate goes through the handler without an exception and
    without a trace in the session, whatever other fields the candidate has
    or lacks: the page shows the warning of the admission and the note that
    the order was skipped. *)
Theorem duplicate_is_skipped (now : string) (d : list (string * pyval)) (s : session_state) :
  d <> [] ->
  any_order_id (field d "order_id") (orders s) = Py.Ok true ->
  extract_and_process now (reply_json (PDict d)) s
  = (Py.Ok tt, s,
     before_saving (PDict d)
       ++ [ warning_duplicate (field d "order_id");
            warning_skipped (shown d "order_id") ]).
Proof.
  intros Hd Hscan. destruct d as [| kv d]; [contradiction |].
  unfold extract_and_process, extract_order_info, bind, show, ret, lift.
  cbn [Py.truthy]. rewrite save_order_to_state_cases, Hscan. reflexivity.
Qed.

Lemma duplicate_is_skipped_witness :
  extract_and_process "t" (reply_json (PDict [("order_id", PStr "PO-1")])) (session_with "PO-1")
  = (Py.Ok tt, session_with "PO-1",
     before_saving (PDict [("order_id", PStr "PO-1")])
       ++ [ warning_duplicate (PStr "PO-1"); warning_skipped (PStr "PO-1") ]).
Proof.
  apply (duplicate_is_skipped "t" [("order_id", PStr "PO-1")] (session_with "PO-1")).
  - discriminate.
  - reflexivity.
Defined.

(** X8: the order is stored before the notification is formatted, and
    stays stored when the formatting fails.  For an accepted candidate whose
    [total_amount] cannot take the format [","] (absent, null, a string, a
    list, an object) the handler ends with that exception, after the page
    has confirmed the saving; the entry and the counter step remain. *)
Theorem stored_although_notification_fails
    (now : string) (d : list (string * pyval)) (s : session_state) (e : Py.exn) :
  d <> [] ->
  any_order_id (field d "order_id") (orders s) = Py.Ok false ->
  Py.format_thousands (shown d "total_amount") = Py.Raise e ->
  extract_and_process now (reply_json (PDict d)) s
  = (Py.Raise e, store now d s,
     before_saving (PDict d)
       ++ [ success_saved (shown d "order_id")
              (format_itn (internal_tracking_counter s + 1)) ]).
Proof.
  intros Hd Hscan Hfmt. destruct d as [| kv d]; [contradiction |].
  unfold extract_and_process, extract_order_info, bind, show, ret, lift, read.
  cbn [Py.truthy]. rewrite save_order_to_state_cases, Hscan.
  cbn [Py.get_default]. fold (shown (kv :: d) "total_amount"). rewrite Hfmt.
  reflexivity.
Qed.

Lemma stored_although_notification_fails_witness :
  extract_and_process "t" (reply_json (PDict [("order_id", PStr "PO-1"); ("total_amount", PNone)]))
    initial_session
  = (Py.Raise Py.TypeError,
     store "t" [("order_id", PStr "PO-1"); ("total_amount", PNone)] initial_session,
     before_saving (PDict [("order_id", PStr "PO-1"); ("total_amount", PNone)])
       ++ [ success_saved (PStr "PO-1") "ITN-0000001" ]).
Proof.
  apply (stored_although_notification_fails "t"
           [("order_id", PStr "PO-1"); ("total_amount", PNone)] initial_session Py.TypeError).
  - discriminate.
  - reflexivity.
  - reflexivity.
Defined.

(** For an accepted candidate with an integer [total_amount] the handler
    gets as far as the notification without an exception. *)
Lemma handler_reaches_notification
    (now : string) (d : list (string * pyval)) (s : session_state) :
  d <> [] ->
  any_order_id (field d "order_id") (orders s) = Py.Ok false ->
  Py.format_thousands (shown d "total_amount") = Py.Ok tt ->
  extract_and_process now (reply_json (PDict d)) s
  = (Py.Ok tt, store now d s,
     before_saving (PDict d)
       ++ [ success_saved (shown d "order_id")
              (format_itn (internal_tracking_counter s + 1));
            info_notification (format_itn (internal_tracking_counter s + 1))
              (shown d "order_id") (shown d "customer_name") (shown d "order_date")
              (shown d "total_amount") (shown d "delivery_address")
              (recipient_email s) ]).
Proof.
  intros Hd Hscan Hfmt. destruct d as [| kv d]; [contradiction |].
  unfold extract_and_process, extract_order_info, bind, show, ret, lift, read.
  cbn [Py.truthy]. rewrite save_order_to_state_cases, Hscan.
  cbn [Py.get_default]. fold (shown (kv :: d) "total_amount"). rewrite Hfmt.
  reflexivity.
Qed.

(** X9: the whole handler on an accepted candidate with an integer
    [total_amount], pressed with a ready client and some e-mail text.  The
    order is stored; the page shows the confirmation and the notification,
    both with the tracking number stored in the new entry, the notification
    with the recipient held in the session and with "N/A" for a field the
    candidate lacks (stored as [None]); then comes the item table, or the
    note that there are no items when [items] is absent, null or empty.
    The handler ends normally unless the drawing of the item table raises;
    the order stays stored in that case too. *)
Theorem accepted_order_is_notified
    (i : run_inputs) (p : page) (d : list (string * pyval)) :
  client_not_set p = false ->
  email_input i <> "" ->
  gemini_answer i = reply_json (PDict d) ->
  d <> [] ->
  any_order_id (field d "order_id") (orders (session p)) = Py.Ok false ->
  Py.format_thousands (shown d "total_amount") = Py.Ok tt ->
  let itn := format_itn (internal_tracking_counter (session p) + 1) in
  let items_list := match Py.lookup "items" d with Some x => x | None => PList [] end in
  process_button i p
  = (if Py.truthy items_list && pandas_raises i then raised_in_pandas else completed,
     with_session (store (clock i) d (session p)) p,
     map from_handler
       (before_saving (PDict d)
          ++ [ success_saved (shown d "order_id") itn;
               info_notification itn
                 (shown d "order_id") (shown d "customer_name") (shown d "order_date")
                 (shown d "total_amount") (shown d "delivery_address")
                 (recipient_email (session p)) ])
       ++ (if Py.truthy items_list
           then if pandas_raises i then [] else [item_table items_list]
           else [warning_no_items]))
  /\ List.last (map (fun e => Py.getitem e "internal_tracking_number")
                  (orders (store (clock i) d (session p))))
          (Py.Ok PNone)
     = Py.Ok (PStr itn).
Proof.
  intros Hc He Ha Hd Hscan Hfmt. cbv zeta. split.
  - unfold process_button. rewrite Hc.
    destruct (email_input i) as [| c text] eqn:Etext; [contradiction |].
    cbn [Py.truthy String.eqb negb].
    rewrite Ha, (handler_reaches_notification (clock i) d (session p) Hd Hscan Hfmt).
    unfold item_details. rewrite Ha. cbn [Py.get_default].
    destruct (Py.truthy match Py.lookup "items" d with
                        | Some x => x
                        | None => PList []
                        end);
      [destruct (pandas_raises i) |]; reflexivity.
  - unfold store. cbn [orders]. rewrite map_app. cbn [map]. rewrite last_last.
    reflexivity.
Qed.

Lemma accepted_order_is_notified_witness :
  let i := press "t" pen_order "orders@shop.example" in
  let p := {| session := initial_session; GEMINI_API_KEY := "k";
              gemini_client := client_ready |} in
  fst (fst (process_button i p)) = completed /\
  orders (session (snd (fst (process_button i p))))
  = [ entry "t" "ITN-0000001"
        [ ("order_id", PStr "PO-1"); ("total_amount", PInt 100);
          ("items", PList [ PDict [ ("product_name", PStr "Pen");
                                    ("quantity", PInt 2);
                                    ("unit_price", PInt 50) ] ]) ] ].
Proof.
  cbv zeta.
  rewrite (proj1 (accepted_order_is_notified
                    (press "t" pen_order "orders@shop.example")
                    {| session := initial_session; GEMINI_API_KEY := "k";
                       gemini_client := client_ready |}
                    [ ("order_id", PStr "PO-1"); ("total_amount", PInt 100);
                      ("items", PList [ PDict [ ("product_name", PStr "Pen");
                                                ("quantity", PInt 2);
                                                ("unit_price", PInt 50) ] ]) ]
                    eq_refl ltac:(discriminate) eq_refl ltac:(discriminate)
                    eq_refl eq_refl)).
  split; reflexivity.
Defined.

(** ** The history table, whatever the ledger *)

Lemma display_row_ok e row :
  display_row e = Py.Ok row ->
  shows row e /\ exists kv, row = PDict kv /\ map fst kv = map fst columns.
Proof.
  unfold display_row. intros H.
  destruct (Py.getitem e "order_id") as [a1 |] eqn:H1; [| discriminate H].
  destruct (Py.getitem e "internal_tracking_number") as [a2 |] eqn:H2; [| discriminate H].
  destruct (Py.getitem e "order_date") as [a3 |] eqn:H3; [| discriminate H].
  destruct (Py.getitem e "customer_name") as [a4 |] eqn:H4; [| discriminate H].
  destruct (Py.getitem e "total_amount") as [a5 |] eqn:H5; [| discriminate H].
  destruct (Py.getitem e "delivery_address") as [a6 |] eqn:H6; [| discriminate H].
  destruct (Py.getitem e "extraction_time") as [a7 |] eqn:H7; [| discriminate H].
  injection H as <-. split.
  - unfold shows, columns. repeat constructor; simpl; symmetry; assumption.
  - eexists. split; reflexivity.
Qed.

Lemma display_rows_ok l :
  forall display_data table,
    display_rows display_data l = Py.Ok table ->
    exists rows,
      table = display_data ++ rows /\
      Forall2 shows rows l /\
      Forall (fun row => exists kv, row = PDict kv /\ map fst kv = map fst columns) rows.
Proof.
  induction l as [| e l IH]; intros display_data table H; simpl in H.
  - injection H as <-. exists []. rewrite app_nil_r. repeat split; constructor.
  - destruct (display_row e) as [row |] eqn:Hrow; [| discriminate H].
    destruct (IH _ _ H) as (rows & -> & Hshow & Hcols).
    destruct (display_row_ok _ _ Hrow) as [Hs Hc].
    exists (row :: rows). rewrite <- app_assoc. repeat split; constructor; assumption.
Qed.

(** X10: the history section is faithful for every ledger, also one this
    program did not build.  It never writes to the session.  When it ends
    normally it shows either the note that nothing has been saved, for an
    empty ledger, or a table with one row per entry, each row holding
    exactly the seven columns with the values of its entry, in reverse
    order of the ledger.  When it ends with an exception, as the lookup of
    a displayed field can, it has shown no table. *)
Theorem history_table_is_faithful
    (dataframe_raises : list pyval -> bool) (s : session_state) :
  let '(r, s', ws) := order_history dataframe_raises s in
  s' = s /\
  match r with
  | Py.Ok _ =>
      (orders s = [] /\ ws = [info_no_orders]) \/
      (exists rows,
         orders s <> [] /\
         ws = [dataframe_history (List.rev rows)] /\
         Forall2 shows rows (orders s) /\
         Forall (fun row => exists kv, row = PDict kv /\ map fst kv = map fst columns) rows)
  | Py.Raise _ => orders s <> [] /\ ws = []
  end.
Proof.
  unfold order_history, bind, read, lift, show. simpl.
  destruct (orders s) as [| e l] eqn:El; simpl.
  - split; [reflexivity |]. left. split; reflexivity.
  - change (match display_row e with
            | Py.Ok row => display_rows [row] l
            | Py.Raise x => Py.Raise x
            end) with (display_rows [] (e :: l)).
    destruct (display_rows [] (e :: l)) as [table |] eqn:Htable.
    + destruct (display_rows_ok _ _ _ Htable) as (rows & -> & Hshow & Hcols).
      simpl. destruct (dataframe_raises (List.rev rows)); simpl.
      * split; [reflexivity |]. split; [discriminate | reflexivity].
      * split; [reflexivity |]. right.
        exists rows. repeat split; try assumption. discriminate.
    + split; [reflexivity |]. split; [discriminate | reflexivity].
Qed.

Lemma Forall2_nth {A B : Type} (R : A -> B -> Prop) l l' k x :
  Forall2 R l l' -> nth_error l k = Some x ->
  exists y, nth_error l' k = Some y /\ R x y.
Proof.
  intros H. revert k. induction H as [| a b l l' Hab _ IH]; intros k Hk.
  - destruct k; discriminate Hk.
  - destruct k as [| k]; simpl in *.
    + injection Hk as <-. exists b. split; [reflexivity | exact Hab].
    + exact (IH k Hk).
Qed.

(** A table on the page is the reversed list of the rows of the ledger. *)
Lemma history_rows dataframe_raises s table :
  snd (order_history dataframe_raises s) = [dataframe_history table] ->
  exists rows, table = List.rev rows /\ Forall2 shows rows (orders s).
Proof.
  unfold order_history, bind, read, lift, show. simpl.
  destruct (orders s) as [| e l]; simpl; [discriminate |].
  change (match display_row e with
          | Py.Ok row => display_rows [row] l
          | Py.Raise x => Py.Raise x
          end) with (display_rows [] (e :: l)).
  destruct (display_rows [] (e :: l)) as [rows' |] eqn:Htable; simpl; [| discriminate].
  destruct (display_rows_ok _ _ _ Htable) as (rows & -> & Hshow & _). simpl.
  destruct (dataframe_raises (List.rev rows)); simpl; [discriminate |].
  intros H. injection H as <-.
  exists rows. split; [reflexivity | exact Hshow].
Qed.

(** X11: the table shows the newest order first: the row at position [k]
    of the table is the row of the entry [k] places before the end of the
    ledger. *)
Theorem history_is_newest_first
    (dataframe_raises : list pyval -> bool) (s : session_state)
    (table : list pyval) (k : nat) (row : pyval) :
  snd (order_history dataframe_raises s) = [dataframe_history table] ->
  nth_error table k = Some row ->
  exists e,
    nth_error (orders s) (List.length (orders s) - S k) = Some e /\
    shows row e.
Proof.
  intros Hw Hk.
  destruct (history_rows dataframe_raises s table Hw) as (rows & -> & Hshow).
  rewrite nth_error_rev in Hk.
  destruct (Nat.ltb_spec k (List.length rows)) as [Hlt |]; [| discriminate Hk].
  rewrite (Forall2_length Hshow) in Hk.
  exact (Forall2_nth shows _ _ _ _ Hshow Hk).
Qed.

Lemma history_is_newest_first_witness :
  let s := fst (run [("t1", po "PO-1" 100); ("t2", po "PO-2" 7)] initial_session) in
  exists e,
    nth_error (orders s) (List.length (orders s) - 1) = Some e /\
    shows (PDict [ ("Order ID", PStr "PO-2"); ("Internal Tracking No.", PStr "ITN-0000002");
                   ("Order Date", PNone); ("Customer Name", PNone);
                   ("Total Amount", PInt 7); ("Delivery Address", PNone);
                   ("Extraction Time", PStr "t2") ]) e.
Proof.
  eapply (history_is_newest_first (fun _ => false)
            (fst (run [("t1", po "PO-1" 100); ("t2", po "PO-2" 7)] initial_session)) _ 0).
  - reflexivity.
  - reflexivity.
Defined.

(** ** The width of a tracking number *)

(** X12: a tracking number has the fixed width of eleven characters,
    "ITN-" and seven digits, exactly as long as the counter is at most
    9,999,999; from 10,000,000 on it is longer, the format pads but never
    cuts. *)
Theorem tracking_number_width (counter : Z) :
  0 <= counter ->
  (String.length (format_itn counter) = 11%nat <-> counter <= 9999999).
Proof.
  intros Hc. unfold format_itn. rewrite append_length.
  change (String.length "ITN-") with 4%nat.
  unfold Py.format_07d. destruct (Z.ltb_spec counter 0) as [Hneg | _]; [lia |].
  rewrite zfill_length.
  destruct (Z.le_gt_cases counter 9999999) as [Hle | Hgt].
  - assert (Hs := digits_length_small (Z.to_N counter)).
    assert (Hn : (Z.to_N counter < 10 ^ 7)%N) by (change (10 ^ 7)%N with 10000000%N; lia).
    specialize (Hs Hn). split; intros; lia.
  - assert (Hl := digits_length_large (Z.to_N counter)).
    assert (Hn : (10 ^ 7 <= Z.to_N counter)%N) by (change (10 ^ 7)%N with 10000000%N; lia).
    specialize (Hl Hn). split; intros; lia.
Qed.

Lemma tracking_number_width_witness :
  String.length (format_itn 9999999) = 11%nat <-> 9999999 <= 9999999.
Proof. apply (tracking_number_width 9999999). lia. Defined.

(** ** The script as a whole *)

Lemma initialise_persist p : initialise (persist p) = p.
Proof. destruct p as [[o c r] k g]. reflexivity. Qed.

Lemma order_history_session dataframe_raises s :
  snd (fst (order_history dataframe_raises s)) = s.
Proof.
  unfold order_history, bind, read, lift, show. simpl.
  destruct (orders s) as [| e l]; simpl; [reflexivity |].
  destruct (display_row e) as [row |]; [| reflexivity].
  destruct (display_rows [row] l) as [table |]; [| reflexivity]. simpl.
  destruct (dataframe_raises (List.rev table)); reflexivity.
Qed.

Lemma sidebar_ledger i p : ledger (session (fst (sidebar i p))) = ledger (session p).
Proof.
  unfold sidebar.
  destruct (apply_pressed i); [| reflexivity].
  destruct (Py.truthy (PStr (GEMINI_API_KEY (with_key (api_key_input i) p))));
    [| reflexivity].
  destruct (client_raises i); reflexivity.
Qed.

Lemma sidebar_recipient i p :
  recipient_email (session (fst (sidebar i p))) = recipient_email_input i.
Proof.
  unfold sidebar.
  destruct (apply_pressed i); [| reflexivity].
  destruct (Py.truthy (PStr (GEMINI_API_KEY (with_key (api_key_input i) p))));
    [| reflexivity].
  destruct (client_raises i); reflexivity.
Qed.

(** The handler leaves the session as it was or as the admission of the
    answer leaves it. *)
Lemma handler_session now reply s :
  snd (fst (extract_and_process now reply s)) = s \/
  exists v,
    reply = reply_json v /\
    Py.truthy v = true /\
    snd (fst (extract_and_process now reply s))
    = snd (fst (save_order_to_state now v s)).
Proof.
  destruct reply as [| v]; [left; reflexivity |].
  destruct (Py.truthy v) eqn:Hv.
  - right. exists v. split; [reflexivity |]. split; [exact Hv |].
    unfold extract_and_process, extract_order_info, bind, show, ret, lift, read.
    rewrite Hv.
    destruct (save_order_to_state now v s) as [[[[saved itn] | e] s1] w];
      [| reflexivity].
    destruct v as [| | | | | | d]; try reflexivity.
    cbn [Py.get_default].
    destruct saved; [| reflexivity].
    destruct (Py.format_thousands
                match Py.lookup "total_amount" d with
                | Some x => x
                | None => PStr "N/A"
                end) as [[] | e]; reflexivity.
  - left. unfold extract_and_process, extract_order_info, bind, show, ret.
    rewrite Hv. reflexivity.
Qed.

Lemma process_button_session i p :
  session (snd (fst (process_button i p))) = session p \/
  exists v,
    gemini_answer i = reply_json v /\
    Py.truthy v = true /\
    client_not_set p = false /\
    Py.truthy (PStr (email_input i)) = true /\
    session (snd (fst (process_button i p)))
    = snd (fst (save_order_to_state (clock i) v (session p))).
Proof.
  unfold process_button.
  destruct (client_not_set p) eqn:Hc; [left; reflexivity |].
  destruct (Py.truthy (PStr (email_input i))) eqn:He; [| left; reflexivity].
  cbn [negb].
  assert (Hs : forall x : ending * page * list page_widget,
             session (snd (fst x))
             = snd (fst (extract_and_process (clock i) (gemini_answer i) (session p))) ->
             session (snd (fst x)) = session p \/
             exists v,
               gemini_answer i = reply_json v /\ Py.truthy v = true /\
               false = false /\ true = true /\
               session (snd (fst x))
               = snd (fst (save_order_to_state (clock i) v (session p)))).
  { intros x Hx. rewrite Hx.
    destruct (handler_session (clock i) (gemini_answer i) (session p))
      as [H | (v & Hv & Ht & H)]; [left; exact H |].
    right. exists v. repeat split; assumption. }
  apply Hs.
  destruct (extract_and_process (clock i) (gemini_answer i) (session p))
    as [[[u | e] s1] ws]; [| reflexivity].
  destruct (notified ws); [| reflexivity].
  destruct (item_details i). reflexivity.
Qed.

Lemma script_session i b :
  session (snd (fst (script i b)))
  = if process_pressed i
    then session (snd (fst (process_button i (fst (sidebar i (initialise b))))))
    else session (fst (sidebar i (initialise b))).
Proof.
  unfold script. destruct (sidebar i (initialise b)) as [p1 w1]. simpl.
  assert (Hh : forall p2 (w2 : list page_widget),
             session (snd (fst (match history i p2 with
                                | (e, p3, w3) => (e, p3, w1 ++ w2 ++ w3)
                                end))) = session p2).
  { intros p2 w2. unfold history.
    assert (Ho := order_history_session (history_raises i) (session p2)).
    destruct (order_history (history_raises i) (session p2)) as [[[u | e] s] ws];
      exact Ho. }
  destruct (process_pressed i).
  - destruct (process_button i p1) as [[e p2] w2]. destruct e; try reflexivity.
    apply Hh.
  - apply (Hh p1 []).
Qed.

Lemma save_ledger now v s s' :
  ledger s = ledger s' ->
  succeeded (fst (fst (save_order_to_state now v s)))
  = succeeded (fst (fst (save_order_to_state now v s'))) /\
  ledger (snd (fst (save_order_to_state now v s)))
  = ledger (snd (fst (save_order_to_state now v s'))).
Proof.
  unfold ledger. intros H. injection H as Ho Hc.
  rewrite !save_order_to_state_cases.
  destruct v as [| | | | | | d]; try (simpl; rewrite Ho, Hc; split; reflexivity).
  rewrite <- Ho.
  destruct (any_order_id (field d "order_id") (orders s)) as [[|] | e];
    simpl; rewrite <- ?Ho, <- ?Hc; split; reflexivity.
Qed.

(** X13: one run of the script takes at most one order, and only through
    the button.  Whatever is typed or pressed, the ledger after the run is
    the ledger the run found, or that ledger with one entry appended and the
    counter one higher; the latter needs the process button, a client that
    is ready after the sidebar, some e-mail text, and an answer of the model
    that is a non-empty JSON object.  The sidebar, the text fields and the
    history never touch the ledger. *)
Theorem a_run_takes_at_most_one_order (i : run_inputs) (b : browser_session) :
  let p := initialise b in
  let p' := snd (fst (script i b)) in
  ledger (session p') = ledger (session p) \/
  (exists d,
     process_pressed i = true /\
     gemini_client (fst (sidebar i p)) = client_ready /\
     email_input i <> "" /\
     gemini_answer i = reply_json (PDict d) /\
     d <> [] /\
     orders (session p')
     = orders (session p)
         ++ [entry (clock i) (format_itn (internal_tracking_counter (session p) + 1)) d] /\
     internal_tracking_counter (session p')
     = internal_tracking_counter (session p) + 1).
Proof.
  cbv zeta. rewrite script_session.
  assert (Hl := sidebar_ledger i (initialise b)).
  destruct (process_pressed i) eqn:Hp; [| left; exact Hl].
  destruct (process_button_session i (fst (sidebar i (initialise b))))
    as [H | (v & Hv & Ht & Hc & He & H)].
  - left. rewrite H. exact Hl.
  - rewrite H, save_order_to_state_cases.
    destruct v as [| | | | | | d]; try (left; exact Hl).
    destruct (any_order_id (field d "order_id")
                (orders (session (fst (sidebar i (initialise b)))))) as [[|] | e];
      try (left; exact Hl).
    right. exists d. unfold ledger in Hl. injection Hl as Ho Hcount.
    split; [reflexivity |]. split.
    { unfold client_not_set in Hc.
      destruct (gemini_client (fst (sidebar i (initialise b)))); try discriminate Hc.
      reflexivity. }
    split; [intros E; rewrite E in He; discriminate He |].
    split; [exact Hv |].
    split; [intros ->; discriminate Ht |].
    unfold store. simpl. rewrite Ho, Hcount. split; reflexivity.
Qed.

Lemma sidebar_widgets i p w :
  In w (snd (sidebar i p)) ->
  w = success_client \/ w = error_client \/ w = warning_enter_key.
Proof.
  unfold sidebar.
  destruct (apply_pressed i); [| intros []].
  destruct (Py.truthy (PStr (GEMINI_API_KEY (with_key (api_key_input i) p))));
    [destruct (client_raises i) |]; simpl; intros [<- | []]; tauto.
Qed.

(** X14: the two checks before the extraction.  When the process button is
    pressed while no client is ready (none was ever built, or the last
    attempt failed) or while the text area is empty, the run stops there:
    the ledger is left as found, and nothing of the extraction, of the
    admission or of the order history is put on the page in that run. *)
Theorem button_needs_client_and_text (i : run_inputs) (b : browser_session) :
  process_pressed i = true ->
  gemini_client (fst (sidebar i (initialise b))) <> client_ready \/ email_input i = "" ->
  let '(e, p', ws) := script i b in
  e = stopped /\
  ledger (session p') = ledger (session (initialise b)) /\
  (forall w, ~ In (from_handler w) ws) /\
  ~ In history_heading ws.
Proof.
  intros Hp Hcheck. unfold script.
  assert (Hl := sidebar_ledger i (initialise b)).
  assert (Hw := sidebar_widgets i (initialise b)).
  destruct (sidebar i (initialise b)) as [p1 w1]. simpl in Hcheck, Hl, Hw.
  rewrite Hp. unfold process_button.
  assert (Hside : forall x,
             In x w1 -> (forall w, x <> from_handler w) /\ x <> history_heading).
  { intros x Hx. destruct (Hw x Hx) as [-> | [-> | ->]]; split; try discriminate;
      intros w; discriminate. }
  assert (Hstop : forall last,
             (forall w, last <> from_handler w) -> last <> history_heading ->
             (forall w, ~ In (from_handler w) (w1 ++ [last])) /\
             ~ In history_heading (w1 ++ [last])).
  { intros last Hlast1 Hlast2. split.
    - intros w Hin. apply in_app_or in Hin. destruct Hin as [Hin | [Hin | []]].
      + exact (proj1 (Hside _ Hin) w eq_refl).
      + exact (Hlast1 w Hin).
    - intros Hin. apply in_app_or in Hin. destruct Hin as [Hin | [Hin | []]].
      + exact (proj2 (Hside _ Hin) eq_refl).
      + exact (Hlast2 Hin). }
  destruct (client_not_set p1) eqn:Hc.
  - split; [reflexivity |]. split; [exact Hl |].
    apply Hstop; [intros w |]; discriminate.
  - destruct Hcheck as [Hclient | Hemail].
    + exfalso. apply Hclient. unfold client_not_set in Hc.
      destruct (gemini_client p1); try discriminate Hc. reflexivity.
    + rewrite Hemail. cbn [Py.truthy String.eqb negb].
      split; [reflexivity |]. split; [exact Hl |].
      apply Hstop; [intros w |]; discriminate.
Qed.

Lemma button_needs_client_and_text_witness :
  let '(e, p', ws) := script (press "t" (po "PO-1" 100) "a@b.c") new_browser_session in
  e = stopped /\
  ledger (session p') = ledger (session (initialise new_browser_session)) /\
  (forall w, ~ In (from_handler w) ws) /\
  ~ In history_heading ws.
Proof.
  apply (button_needs_client_and_text (press "t" (po "PO-1" 100) "a@b.c") new_browser_session).
  - reflexivity.
  - left. discriminate.
Defined.

Lemma handler_notification now reply s itn a1 a2 a3 a4 a5 r :
  In (info_notification itn a1 a2 a3 a4 a5 r) (snd (extract_and_process now reply s)) ->
  r = recipient_email s.
Proof.
  destruct reply as [| v]; [simpl; intros [H | [H | []]]; discriminate H |].
  unfold extract_and_process, extract_order_info, bind, show, ret, lift, read.
  destruct (Py.truthy v); [| simpl; intros [H | []]; discriminate H].
  rewrite save_order_to_state_cases.
  destruct v as [| | | | | | d];
    try (simpl; intros H; repeat (destruct H as [H | H]; [discriminate H |]); destruct H).
  destruct (any_order_id (field d "order_id") (orders s)) as [[|] | e];
    try (simpl; intros H; repeat (destruct H as [H | H]; [discriminate H |]); destruct H).
  cbn [Py.get_default].
  destruct (Py.format_thousands
              match Py.lookup "total_amount" d with
              | Some x => x
              | None => PStr "N/A"
              end) as [[] | e];
    simpl; intros H.
  - repeat (destruct H as [H | H]; [try discriminate H |]); [| destruct H].
    injection H as _ _ _ _ _ _ <-. reflexivity.
  - repeat (destruct H as [H | H]; [discriminate H |]). destruct H.
Qed.

Lemma from_handler_in w ws : In (from_handler w) (map from_handler ws) -> In w ws.
Proof.
  intros H. apply in_map_iff in H. destruct H as (x & E & Hx).
  injection E as ->. exact Hx.
Qed.

Lemma process_button_widgets i p w :
  In (from_handler w) (snd (process_button i p)) ->
  In w (snd (extract_and_process (clock i) (gemini_answer i) (session p))).
Proof.
  unfold process_button.
  destruct (client_not_set p); [simpl; intros [H | []]; discriminate H |].
  destruct (negb (Py.truthy (PStr (email_input i))));
    [simpl; intros [H | []]; discriminate H |].
  destruct (extract_and_process (clock i) (gemini_answer i) (session p))
    as [[[u | e] s1] ws]; simpl; [| apply from_handler_in].
  destruct (notified ws); [| apply from_handler_in].
  unfold item_details.
  destruct (gemini_answer i) as [| v]; simpl.
  - rewrite app_nil_r. apply from_handler_in.
  - destruct (Py.get_default v "items" (PList [])) as [items_list | e]; simpl.
    + destruct (Py.truthy items_list); [destruct (pandas_raises i) |]; simpl;
        intros H; apply in_app_or in H;
        (destruct H as [H | H]; [exact (from_handler_in _ _ H) |]);
        repeat (destruct H as [H | H]; [discriminate H |]); destruct H.
    + rewrite app_nil_r. apply from_handler_in.
Qed.

Lemma history_widgets i p w :
  In (from_handler w) (snd (history i p)) ->
  w = info_no_orders \/ exists table, w = dataframe_history table.
Proof.
  unfold history, order_history, bind, read, lift, show. simpl.
  destruct (orders (session p)) as [| e l]; simpl.
  - intros [H | [H | []]]; [discriminate H |]. injection H as <-. left. reflexivity.
  - destruct (match display_row e with
              | Py.Ok row => display_rows [row] l
              | Py.Raise x => Py.Raise x
              end) as [table |]; simpl.
    + destruct (history_raises i (List.rev table)); simpl.
      * intros [H | []]. discriminate H.
      * intros [H | [H | []]]; [discriminate H |]. injection H as <-.
        right. eexists. reflexivity.
    + intros [H | []]. discriminate H.
Qed.

(** X15: a notification on the page names the recipient typed into the
    sidebar in that same run, not the one of an earlier run and not the
    default: the sidebar stores the field before the handler reads it. *)
Theorem notification_names_typed_recipient
    (i : run_inputs) (b : browser_session) (itn : string)
    (order_id cust_name order_date total delivery_address : pyval) (recipient : string) :
  In (from_handler (info_notification itn order_id cust_name order_date total
                      delivery_address recipient))
     (snd (script i b)) ->
  recipient = recipient_email_input i.
Proof.
  unfold script.
  assert (Hr := sidebar_recipient i (initialise b)).
  assert (Hw := sidebar_widgets i (initialise b)).
  destruct (sidebar i (initialise b)) as [p1 w1]. simpl in Hr, Hw.
  assert (Hside : forall w, ~ In (from_handler w) w1).
  { intros w Hin. destruct (Hw _ Hin) as [H | [H | H]]; discriminate H. }
  assert (Hbutton : forall w2,
             (w2 = [] \/ w2 = snd (process_button i p1)) ->
             In (from_handler (info_notification itn order_id cust_name order_date total
                                 delivery_address recipient)) w2 ->
             recipient = recipient_email_input i).
  { intros w2 [-> | ->] Hin; [destruct Hin |].
    apply process_button_widgets in Hin. apply handler_notification in Hin.
    rewrite Hin. exact Hr. }
  assert (Hhist : forall p2,
             ~ In (from_handler (info_notification itn order_id cust_name order_date total
                                   delivery_address recipient)) (snd (history i p2))).
  { intros p2 Hin. apply history_widgets in Hin.
    destruct Hin as [H | [table H]]; discriminate H. }
  assert (Hall : forall (x : ending * page * list page_widget),
             (snd x = [] \/ snd x = snd (process_button i p1)) ->
             In (from_handler (info_notification itn order_id cust_name order_date total
                                 delivery_address recipient))
                (snd (match x with
                      | (completed, p2, w2) =>
                          match history i p2 with
                          | (e, p3, w3) => (e, p3, w1 ++ w2 ++ w3)
                          end
                      | (e, p2, w2) => (e, p2, w1 ++ w2)
                      end)) ->
             recipient = recipient_email_input i).
  { intros [[e p2] w2] Hx Hin. simpl in Hx.
    assert (Hcase : In (from_handler (info_notification itn order_id cust_name order_date
                                        total delivery_address recipient)) (w1 ++ w2)
                    \/ In (from_handler (info_notification itn order_id cust_name order_date
                                           total delivery_address recipient))
                          (snd (history i p2))).
    { destruct e; try (left; exact Hin).
      destruct (history i p2) as [[e3 p3] w3]. simpl in Hin |- *.
      rewrite app_assoc in Hin. apply in_app_or in Hin. exact Hin. }
    destruct Hcase as [Hin' | Hin']; [| exfalso; exact (Hhist p2 Hin')].
    apply in_app_or in Hin'. destruct Hin' as [Hin' | Hin'].
    - exfalso. exact (Hside _ Hin').
    - exact (Hbutton w2 Hx Hin'). }
  destruct (process_pressed i).
  - apply Hall. right. reflexivity.
  - apply (Hall (completed, p1, [])). left. reflexivity.
Qed.

Lemma notification_names_typed_recipient_witness :
  "orders@shop.example" = recipient_email_input (press "t" (po "PO-1" 100) "orders@shop.example").
Proof.
  apply (notification_names_typed_recipient
           (press "t" (po "PO-1" 100) "orders@shop.example")
           (persist (snd (fst (script apply_key new_browser_session))))
           "ITN-0000001" (PStr "PO-1") (PStr "N/A") (PStr "N/A") (PInt 100) (PStr "N/A")
           "orders@shop.example").
  simpl. do 6 right. left. reflexivity.
Defined.

(** What a run of the script does to the ledger, an admission does. *)
Lemma script_ledger_as_admission i b :
  ledger (session (snd (fst (script i b)))) = ledger (session (initialise b)) \/
  exists v,
    ledger (session (snd (fst (script i b))))
    = ledger (snd (fst (save_order_to_state (clock i) v (session (initialise b))))).
Proof.
  rewrite script_session.
  assert (Hl := sidebar_ledger i (initialise b)).
  destruct (process_pressed i); [| left; exact Hl].
  destruct (process_button_session i (fst (sidebar i (initialise b))))
    as [H | (v & _ & _ & _ & _ & H)].
  - left. rewrite H. exact Hl.
  - right. exists v. rewrite H.
    exact (proj2 (save_ledger (clock i) v _ _ Hl)).
Qed.

(** The ledger of a browser session is the ledger of a run of admissions
    from a fresh session. *)
Lemma browse_as_run runs :
  forall b calls,
    ledger (session (initialise b)) = ledger (fst (run calls initial_session)) ->
    exists calls',
      ledger (session (initialise (browse runs b)))
      = ledger (fst (run calls' initial_session)).
Proof.
  induction runs as [| i runs IH]; intros b calls Hb; simpl.
  - exists calls. exact Hb.
  - assert (Hstep := script_ledger_as_admission i b).
    destruct (script i b) as [[e p] ws]. cbn [fst snd] in Hstep.
    destruct Hstep as [H | [v H]].
    + apply (IH (persist p) calls). rewrite initialise_persist, H. exact Hb.
    + apply (IH (persist p) (calls ++ [(clock i, v)])).
      rewrite initialise_persist, H, run_app.
      rewrite (proj2 (save_ledger (clock i) v _ _ Hb)). cbn [run].
      destruct (save_order_to_state (clock i) v (fst (run calls initial_session)))
        as [[r s1] w]. reflexivity.
Qed.

(** X16: the invariants of the ledger hold for the program as it is used,
    not only for direct calls of the admission.  After any number of runs of
    the script in a new browser session, whatever was typed and pressed and
    whatever the model answered, the counter is the number of entries, the
    entry at position k carries the tracking number of k + 1, and the
    order_id of an entry never compares equal to the order_id of an earlier
    one, so that two entries have the same order_id only when it is the
    float NaN. *)
Theorem browsing_keeps_the_ledger_sound (runs : list run_inputs) :
  let s := session (initialise (browse runs new_browser_session)) in
  internal_tracking_counter s = Z.of_nat (List.length (orders s)) /\
  (forall k e,
     nth_error (orders s) k = Some e ->
     Py.getitem e "internal_tracking_number"
     = Py.Ok (PStr (format_itn (Z.of_nat (S k))))) /\
  (forall i j ei ej,
     (i < j)%nat ->
     nth_error (orders s) i = Some ei ->
     nth_error (orders s) j = Some ej ->
     exists a b,
       Py.getitem ei "order_id" = Py.Ok a /\
       Py.getitem ej "order_id" = Py.Ok b /\
       Py.equal a b = false /\
       (a = b -> a = nan)).
Proof.
  cbv zeta.
  destruct (browse_as_run runs new_browser_session [] eq_refl) as [calls Hl].
  set (s := session (initialise (browse runs new_browser_session))) in *.
  clearbody s. unfold ledger in Hl. injection Hl as Ho Hc. rewrite Ho, Hc. clear Ho Hc.
  split; [| split].
  - destruct (run calls initial_session) as [s' rs] eqn:Hrun. simpl.
    destruct (run_from calls _ _ _ Hrun) as (new & Ho & Hc & _).
    simpl in Ho, Hc. rewrite Ho, Hc. reflexivity.
  - intros k e Hk. exact (tracking_number_at calls k e Hk).
  - assert (Hd : distinct_order_ids (orders (fst (run calls initial_session)))).
    { apply distinct_order_ids_run. intros i' j' ? ? _ Hnil.
      destruct i'; discriminate Hnil. }
    intros i j ei ej Hij Hi Hj.
    destruct (Hd i j ei ej Hij Hi Hj) as (a & b' & Ha & Hb & Hab).
    exists a, b'. repeat split; try assumption.
    intros <-. destruct (pyval_eq_nan a) as [E | E]; [exact E |].
    rewrite (equal_refl a E) in Hab. discriminate.
Qed.

Example browsing_three_runs :
  orders (session (initialise
    (browse [ apply_key;
              press "t1" (po "PO-1" 100) "a@b.c";
              press "t2" (po "PO-1" 250) "a@b.c";
              press "t3" (po "PO-2" 7) "a@b.c" ]
            new_browser_session)))
  = [ entry "t1" "ITN-0000001" [("order_id", PStr "PO-1"); ("total_amount", PInt 100)];
      entry "t3" "ITN-0000002" [("order_id", PStr "PO-2"); ("total_amount", PInt 7)] ].
Proof. reflexivity. Qed.

Lemma script_client i b :
  gemini_client (snd (fst (script i b))) = gemini_client (fst (sidebar i (initialise b))).
Proof.
  unfold script. destruct (sidebar i (initialise b)) as [p1 w1]. simpl.
  assert (Hh : forall p2 (w2 : list page_widget),
             gemini_client (snd (fst (match history i p2 with
                                      | (e, p3, w3) => (e, p3, w1 ++ w2 ++ w3)
                                      end))) = gemini_client p2).
  { intros p2 w2. unfold history.
    destruct (order_history (history_raises i) (session p2)) as [[[u | e] s] ws];
      reflexivity. }
  assert (Hb : gemini_client (snd (fst (process_button i p1))) = gemini_client p1).
  { unfold process_button.
    destruct (client_not_set p1); [reflexivity |].
    destruct (negb (Py.truthy (PStr (email_input i)))); [reflexivity |].
    destruct (extract_and_process (clock i) (gemini_answer i) (session p1))
      as [[[u | e] s1] ws]; [| reflexivity].
    destruct (notified ws); [| reflexivity].
    destruct (item_details i). reflexivity. }
  destruct (process_pressed i).
  - destruct (process_button i p1) as [[e p2] w2]. simpl in Hb.
    destruct e; try exact Hb. rewrite Hh. exact Hb.
  - apply (Hh p1 []).
Qed.

(** X17: a failed attempt to build the client disables the button, also
    when a client was ready before.  After a run in which Apply was pressed
    with a non-empty key and the construction of the client raised, a press
    of the process button in the next run stops at the first check, unless
    that run builds a client itself. *)
Theorem failed_client_blocks_processing (i1 i2 : run_inputs) (b : browser_session) :
  apply_pressed i1 = true ->
  api_key_input i1 <> "" ->
  client_raises i1 = true ->
  apply_pressed i2 = false ->
  process_pressed i2 = true ->
  fst (fst (script i2 (persist (snd (fst (script i1 b)))))) = stopped.
Proof.
  intros Ha1 Hk1 Hr1 Ha2 Hp2.
  assert (Hc1 : gemini_client (snd (fst (script i1 b))) = client_None).
  { rewrite script_client. unfold sidebar. rewrite Ha1. cbn [with_key GEMINI_API_KEY].
    destruct (api_key_input i1) as [| c k] eqn:Ek; [contradiction |].
    cbn [Py.truthy String.eqb negb]. rewrite Hr1. reflexivity. }
  unfold script at 1. rewrite initialise_persist.
  unfold sidebar. rewrite Ha2, Hp2. unfold process_button, client_not_set.
  cbn [with_session gemini_client]. rewrite Hc1. reflexivity.
Qed.

Lemma failed_client_blocks_processing_witness :
  fst (fst (script (press "t" (po "PO-1" 100) "a@b.c")
              (persist (snd (fst (script
                 {| api_key_input := "wrong";
                    apply_pressed := true;
                    client_raises := true;
                    recipient_email_input := "a@b.c";
                    email_input := "";
                    process_pressed := false;
                    gemini_answer := reply_raises;
                    clock := "";
                    pandas_raises := false;
                    history_raises := fun _ => false |}
                 (persist (snd (fst (script apply_key new_browser_session))))))))))
  = stopped.
Proof.
  apply failed_client_blocks_processing; try reflexivity. discriminate.
Defined.
